(** * MMM-Ring node helper: session orchestration and stream readiness

    A shallow embedding of [node_helper.js].  The helper object is a record
    of its fields together with the collaborators it talks to (the event
    loop's timers and suspended calls, the chokidar watchers, the Ring
    sessions, the two places on disk).  Every callback of the source is a
    function on that record that runs to completion; an [Event] is one
    callback invocation by the event loop, and [step] dispatches it. *)

From Stdlib Require Import List String Ascii ZArith Bool Arith Lia.
Import ListNotations.

Local Open Scope Z_scope.
Local Open Scope list_scope.

(** ** Data *)

(** The payload of [BEGIN_RING_MONITORING]. *)
Record Config := mkConfig {
  ring2faRefreshToken : string;
  ringStreamMotion : bool;
  ringMinutesToStreamVideo : Z
}.

(** A camera object of the Ring client; objects are told apart by
    [camera_id]. *)
Record Camera := mkCamera {
  camera_id : nat;
  camera_name : string
}.

(** The second argument of [startSession]. *)
Inductive TriggerType := ring | motion.

Inductive Notification :=
| VIDEO_STREAM_AVAILABLE
| VIDEO_STREAM_ENDED
| DISPLAY_ERROR (message : string).

(** The messages handed to [toLog], one constructor per call site. *)
Inductive LogLine :=
| Log_Starting
| Log_Stopping
| Log_RefreshTokenUpdated
| Log_Found (locations cameras : nat)
| Log_MonitorError (message : string)
| Log_Motion (camera : string) (m : bool)
| Log_Preparing (camera : string) (type : TriggerType)
| Log_StreamEnded (camera : string)
| Log_ErrorStartingStream (message : string).

(** The two closures given to [setTimeout].  Neither closure captures the
    session or the watcher it was created for: the index is bookkeeping that
    records which one that was, and [run_callback] does not read it. *)
Inductive TimerCallback :=
| SessionTimeout (owner : nat)
| WatcherTimeout (owner : nat).

Record Timer := mkTimer {
  due : Z;
  callback : TimerCallback
}.

(** A call suspended at an [await]. *)
Inductive Continuation :=
| AwaitCleanUp (camera : Camera)
| AwaitCreate (camera : Camera) (streamTimeOut : Z)
| AwaitStopCleanUp.

(** What is found at the path [videoOutputDirectory].  A [ProtectedFile]
    is a file whose unlink the system refuses (EACCES, EPERM); an
    [UnreadableDirectory] is a directory whose listing it refuses. *)
Inductive EntryKind := RegularFile | SubDirectory | ProtectedFile.

Inductive DirNode :=
| Absent (creatable : bool)
| NotADirectory
| Directory (entries : list (string * EntryKind))
| UnreadableDirectory.

Inductive Outcome := Resolved | Rejected.

Inductive SessionState := Idle | Starting | Active.

(** ** The helper and its collaborators *)

Record Helper := mkHelper {
  (* fields set by [start] *)
  config : option Config;
  watcher : option nat;
  sipSession : option nat;
  sessionRunning : bool;
  ringApi : bool;
  (* subscriptions made by [monitorRingActivity] *)
  doorbell_subs : list Camera;
  motion_subs : list Camera;
  activity_subs : list Camera;
  (* the event loop *)
  discovering : nat;
  pending : list Continuation;
  timers : list Timer;
  now : Z;
  (* the disk *)
  directory : DirNode;
  envFile : option string;
  (* chokidar *)
  open_watchers : list nat;
  next_watcher : nat;
  (* Ring sessions that were created and have not ended, each with the
     camera its [onCallEnded] subscriber captured *)
  calls : list (nat * Camera);
  next_session : nat;
  stop_requests : list nat;
  (* what the helper produced; [ready_by] notes, for each
     VIDEO_STREAM_AVAILABLE sent, the watcher whose listener sent it *)
  console : list LogLine;
  notifications : list Notification;
  ready_by : list nat
}.

Definition set_config (v : option Config) (s : Helper) : Helper :=
  mkHelper v (watcher s) (sipSession s) (sessionRunning s) (ringApi s)
    (doorbell_subs s) (motion_subs s) (activity_subs s) (discovering s)
    (pending s) (timers s) (now s) (directory s) (envFile s)
    (open_watchers s) (next_watcher s) (calls s) (next_session s)
    (stop_requests s) (console s) (notifications s) (ready_by s).

Definition set_watcher (v : option nat) (s : Helper) : Helper :=
  mkHelper (config s) v (sipSession s) (sessionRunning s) (ringApi s)
    (doorbell_subs s) (motion_subs s) (activity_subs s) (discovering s)
    (pending s) (timers s) (now s) (directory s) (envFile s)
    (open_watchers s) (next_watcher s) (calls s) (next_session s)
    (stop_requests s) (console s) (notifications s) (ready_by s).

Definition set_sipSession (v : option nat) (s : Helper) : Helper :=
  mkHelper (config s) (watcher s) v (sessionRunning s) (ringApi s)
    (doorbell_subs s) (motion_subs s) (activity_subs s) (discovering s)
    (pending s) (timers s) (now s) (directory s) (envFile s)
    (open_watchers s) (next_watcher s) (calls s) (next_session s)
    (stop_requests s) (console s) (notifications s) (ready_by s).

Definition set_sessionRunning (v : bool) (s : Helper) : Helper :=
  mkHelper (config s) (watcher s) (sipSession s) v (ringApi s)
    (doorbell_subs s) (motion_subs s) (activity_subs s) (discovering s)
    (pending s) (timers s) (now s) (directory s) (envFile s)
    (open_watchers s) (next_watcher s) (calls s) (next_session s)
    (stop_requests s) (console s) (notifications s) (ready_by s).

Definition set_ringApi (v : bool) (s : Helper) : Helper :=
  mkHelper (config s) (watcher s) (sipSession s) (sessionRunning s) v
    (doorbell_subs s) (motion_subs s) (activity_subs s) (discovering s)
    (pending s) (timers s) (now s) (directory s) (envFile s)
    (open_watchers s) (next_watcher s) (calls s) (next_session s)
    (stop_requests s) (console s) (notifications s) (ready_by s).

Definition set_subs (d m a : list Camera) (s : Helper) : Helper :=
  mkHelper (config s) (watcher s) (sipSession s) (sessionRunning s) (ringApi s)
    d m a (discovering s)
    (pending s) (timers s) (now s) (directory s) (envFile s)
    (open_watchers s) (next_watcher s) (calls s) (next_session s)
    (stop_requests s) (console s) (notifications s) (ready_by s).

Definition set_discovering (v : nat) (s : Helper) : Helper :=
  mkHelper (config s) (watcher s) (sipSession s) (sessionRunning s) (ringApi s)
    (doorbell_subs s) (motion_subs s) (activity_subs s) v
    (pending s) (timers s) (now s) (directory s) (envFile s)
    (open_watchers s) (next_watcher s) (calls s) (next_session s)
    (stop_requests s) (console s) (notifications s) (ready_by s).

Definition set_pending (v : list Continuation) (s : Helper) : Helper :=
  mkHelper (config s) (watcher s) (sipSession s) (sessionRunning s) (ringApi s)
    (doorbell_subs s) (motion_subs s) (activity_subs s) (discovering s)
    v (timers s) (now s) (directory s) (envFile s)
    (open_watchers s) (next_watcher s) (calls s) (next_session s)
    (stop_requests s) (console s) (notifications s) (ready_by s).

Definition set_timers (v : list Timer) (s : Helper) : Helper :=
  mkHelper (config s) (watcher s) (sipSession s) (sessionRunning s) (ringApi s)
    (doorbell_subs s) (motion_subs s) (activity_subs s) (discovering s)
    (pending s) v (now s) (directory s) (envFile s)
    (open_watchers s) (next_watcher s) (calls s) (next_session s)
    (stop_requests s) (console s) (notifications s) (ready_by s).

Definition set_now (v : Z) (s : Helper) : Helper :=
  mkHelper (config s) (watcher s) (sipSession s) (sessionRunning s) (ringApi s)
    (doorbell_subs s) (motion_subs s) (activity_subs s) (discovering s)
    (pending s) (timers s) v (directory s) (envFile s)
    (open_watchers s) (next_watcher s) (calls s) (next_session s)
    (stop_requests s) (console s) (notifications s) (ready_by s).

Definition set_directory (v : DirNode) (s : Helper) : Helper :=
  mkHelper (config s) (watcher s) (sipSession s) (sessionRunning s) (ringApi s)
    (doorbell_subs s) (motion_subs s) (activity_subs s) (discovering s)
    (pending s) (timers s) (now s) v (envFile s)
    (open_watchers s) (next_watcher s) (calls s) (next_session s)
    (stop_requests s) (console s) (notifications s) (ready_by s).

Definition set_envFile (v : option string) (s : Helper) : Helper :=
  mkHelper (config s) (watcher s) (sipSession s) (sessionRunning s) (ringApi s)
    (doorbell_subs s) (motion_subs s) (activity_subs s) (discovering s)
    (pending s) (timers s) (now s) (directory s) v
    (open_watchers s) (next_watcher s) (calls s) (next_session s)
    (stop_requests s) (console s) (notifications s) (ready_by s).

Definition set_watchers (o : list nat) (n : nat) (s : Helper) : Helper :=
  mkHelper (config s) (watcher s) (sipSession s) (sessionRunning s) (ringApi s)
    (doorbell_subs s) (motion_subs s) (activity_subs s) (discovering s)
    (pending s) (timers s) (now s) (directory s) (envFile s)
    o n (calls s) (next_session s)
    (stop_requests s) (console s) (notifications s) (ready_by s).

Definition set_calls (c : list (nat * Camera)) (n : nat) (s : Helper) : Helper :=
  mkHelper (config s) (watcher s) (sipSession s) (sessionRunning s) (ringApi s)
    (doorbell_subs s) (motion_subs s) (activity_subs s) (discovering s)
    (pending s) (timers s) (now s) (directory s) (envFile s)
    (open_watchers s) (next_watcher s) c n
    (stop_requests s) (console s) (notifications s) (ready_by s).

Definition set_stop_requests (v : list nat) (s : Helper) : Helper :=
  mkHelper (config s) (watcher s) (sipSession s) (sessionRunning s) (ringApi s)
    (doorbell_subs s) (motion_subs s) (activity_subs s) (discovering s)
    (pending s) (timers s) (now s) (directory s) (envFile s)
    (open_watchers s) (next_watcher s) (calls s) (next_session s)
    v (console s) (notifications s) (ready_by s).

Definition set_console (v : list LogLine) (s : Helper) : Helper :=
  mkHelper (config s) (watcher s) (sipSession s) (sessionRunning s) (ringApi s)
    (doorbell_subs s) (motion_subs s) (activity_subs s) (discovering s)
    (pending s) (timers s) (now s) (directory s) (envFile s)
    (open_watchers s) (next_watcher s) (calls s) (next_session s)
    (stop_requests s) v (notifications s) (ready_by s).

Definition set_notifications (v : list Notification) (s : Helper) : Helper :=
  mkHelper (config s) (watcher s) (sipSession s) (sessionRunning s) (ringApi s)
    (doorbell_subs s) (motion_subs s) (activity_subs s) (discovering s)
    (pending s) (timers s) (now s) (directory s) (envFile s)
    (open_watchers s) (next_watcher s) (calls s) (next_session s)
    (stop_requests s) (console s) v (ready_by s).

Definition set_ready_by (v : list nat) (s : Helper) : Helper :=
  mkHelper (config s) (watcher s) (sipSession s) (sessionRunning s) (ringApi s)
    (doorbell_subs s) (motion_subs s) (activity_subs s) (discovering s)
    (pending s) (timers s) (now s) (directory s) (envFile s)
    (open_watchers s) (next_watcher s) (calls s) (next_session s)
    (stop_requests s) (console s) (notifications s) v.

(** ** Lists and strings as the source uses them

    A JavaScript string is held as the bytes of its UTF-8 encoding. *)

Fixpoint remove_nth {A : Type} (k : nat) (l : list A) : list A :=
  match l, k with
  | [], _ => []
  | _ :: l', O => l'
  | x :: l', S k' => x :: remove_nth k' l'
  end.

Definition mem (n : nat) (l : list nat) : bool := existsb (Nat.eqb n) l.

Definition same_camera (a b : Camera) : bool :=
  Nat.eqb (camera_id a) (camera_id b).

Definition subscribed (c : Camera) (l : list Camera) : bool :=
  existsb (same_camera c) l.

(** [s.split(sep)] for a separator of one character. *)
Fixpoint split (sep : ascii) (s : string) : list string :=
  match s with
  | EmptyString => [EmptyString]
  | String c s' =>
      if Ascii.eqb c sep then EmptyString :: split sep s'
      else match split sep s' with
           | seg :: segs => String c seg :: segs
           | [] => [String c EmptyString]
           end
  end.

(** [a.pop()], read for its value. *)
Definition pop (l : list string) : string := last l EmptyString.

(** [String.prototype.indexOf]: where the first occurrence starts. *)
Fixpoint indexOf (pat s : string) : option nat :=
  if prefix pat s then Some O
  else match s with
       | EmptyString => None
       | String _ s' => option_map S (indexOf pat s')
       end.

Fixpoint take (n : nat) (s : string) : string :=
  match n, s with
  | S n', String c s' => String c (take n' s')
  | _, _ => EmptyString
  end.

Fixpoint drop (n : nat) (s : string) : string :=
  match n, s with
  | S n', String _ s' => drop n' s'
  | _, _ => s
  end.

(** The expansion [String.prototype.replace] applies to a replacement
    string when the pattern is a string (no captures): [$$], [$&], the
    dollar-backtick and dollar-apostrophe forms; any other [$] stands for
    itself. *)
Fixpoint GetSubstitution (matched before after template : string) : string :=
  match template with
  | EmptyString => EmptyString
  | String c tl =>
      if Ascii.eqb c "$" then
        match tl with
        | String d rest =>
            if Ascii.eqb d "$" then String "$" (GetSubstitution matched before after rest)
            else if Ascii.eqb d "&" then
              (matched ++ GetSubstitution matched before after rest)%string
            else if Ascii.eqb d "`" then
              (before ++ GetSubstitution matched before after rest)%string
            else if Ascii.eqb d "'" then
              (after ++ GetSubstitution matched before after rest)%string
            else String c (GetSubstitution matched before after tl)
        | EmptyString => String c EmptyString
        end
      else String c (GetSubstitution matched before after tl)
  end.

(** [s.replace(searchValue, replaceValue)] with two strings. *)
Definition replace (s searchValue replaceValue : string) : string :=
  match indexOf searchValue s with
  | None => s
  | Some i =>
      let before := take i s in
      let after := drop (i + String.length searchValue) s in
      (before ++ GetSubstitution searchValue before after replaceValue ++ after)%string
  end.

(** A value used as a condition: [undefined] and the empty string are
    falsy. *)
Definition truthy (v : option string) : bool :=
  match v with
  | None => false
  | Some EmptyString => false
  | Some _ => true
  end.

(** No dollar sign of [s] starts one of the four patterns. *)
Fixpoint dollar_pattern_free (s : string) : bool :=
  match s with
  | EmptyString => true
  | String c tl =>
      (negb (Ascii.eqb c "$") ||
       match tl with
       | String d _ =>
           negb (Ascii.eqb d "$" || Ascii.eqb d "&" || Ascii.eqb d "`" || Ascii.eqb d "'")
       | EmptyString => true
       end)
      && dollar_pattern_free tl
  end.

(** ** The output directory ([fs.exists], [fs.mkdir], [fs.readdir],
    [fs.unlink]) *)

Definition fs_exists (d : DirNode) : bool :=
  match d with
  | Absent _ => false
  | _ => true
  end.

Definition fs_mkdir (d : DirNode) : option DirNode :=
  match d with
  | Absent true => Some (Directory [])
  | _ => None
  end.

Definition fs_readdir (d : DirNode) : option (list string) :=
  match d with
  | Directory entries => Some (map fst entries)
  | _ => None
  end.

(** Removes the first entry called [filename] when it is a regular file
    that may be removed; rejects when there is none of that name (ENOENT),
    when it is a directory or when the removal is refused. *)
Fixpoint unlink_entry (filename : string) (entries : list (string * EntryKind))
  : option (list (string * EntryKind)) :=
  match entries with
  | [] => None
  | (n, k) :: rest =>
      if String.eqb n filename then
        match k with
        | RegularFile => Some rest
        | SubDirectory | ProtectedFile => None
        end
      else option_map (cons (n, k)) (unlink_entry filename rest)
  end.

Definition fs_unlink (filename : string) (d : DirNode) : option DirNode :=
  match d with
  | Directory entries => option_map Directory (unlink_entry filename entries)
  | _ => None
  end.

(** [Promise.all(files.map(unlink))]: every unlink is issued, the whole
    resolves when each one did. *)
Fixpoint unlinkAll (files : list string) (d : DirNode) : Outcome * DirNode :=
  match files with
  | [] => (Resolved, d)
  | f :: rest =>
      match fs_unlink f d with
      | Some d' => unlinkAll rest d'
      | None => (Rejected, snd (unlinkAll rest d))
      end
  end.

Definition cleanUpVideoStreamDirectory (d : DirNode) : Outcome * DirNode :=
  let made := if fs_exists d then Some d else fs_mkdir d in
  match made with
  | None => (Rejected, d)
  | Some d1 =>
      match fs_readdir d1 with
      | None => (Rejected, d1)
      | Some files => unlinkAll files d1
      end
  end.

(** ** Watching for the playlist *)

Definition audioPlaylistFile : string := "stream.m3u8".

(** Whether the text starts with a character the dot of a regular
    expression refuses: LF, CR, or U+2028 and U+2029, which are the bytes
    E2 80 A8 and E2 80 A9. *)
Definition starts_with_line_terminator (s : string) : bool :=
  match s with
  | EmptyString => false
  | String d r =>
      Ascii.eqb d "010" || Ascii.eqb d "013" ||
      (Ascii.eqb d "226" &&
       match r with
       | String e (String f _) =>
           Ascii.eqb e "128" && (Ascii.eqb f "168" || Ascii.eqb f "169")
       | _ => false
       end)
  end.

(** The [ignored] option, [/(^|[\/\\])\../]: a dot at the start of the path
    or right after a separator, followed by one more character. *)
Fixpoint ignored_from (at_start : bool) (p : string) : bool :=
  match p with
  | EmptyString => false
  | String c rest =>
      (at_start && Ascii.eqb c "." &&
       match rest with
       | String _ _ => negb (starts_with_line_terminator rest)
       | EmptyString => false
       end)
      || ignored_from (Ascii.eqb c "/" || Ascii.eqb c "\") rest
  end.

Definition ignored (p : string) : bool := ignored_from true p.

(** ** Effects *)

Definition toLog (message : LogLine) (s : Helper) : Helper :=
  set_console (console s ++ [message]) s.

Definition sendSocketNotification (n : Notification) (s : Helper) : Helper :=
  set_notifications (notifications s ++ [n]) s.

Definition suspend (k : Continuation) (s : Helper) : Helper :=
  set_pending (pending s ++ [k]) s.

Definition resume (k : nat) (s : Helper) : Helper :=
  set_pending (remove_nth k (pending s)) s.

(** Node replaces a delay below 1 or above 2^31-1 by 1. *)
Definition timer_delay (delay : Z) : Z :=
  if (delay <? 1) || (2147483647 <? delay) then 1 else delay.

Definition setTimeout (cb : TimerCallback) (delay : Z) (s : Helper) : Helper :=
  set_timers (timers s ++ [mkTimer (now s + timer_delay delay) cb]) s.

(** [watcher.close()]: the watcher emits nothing from here on. *)
Definition watcher_close (w : nat) (s : Helper) : Helper :=
  set_watchers (filter (fun x => negb (Nat.eqb x w)) (open_watchers s))
    (next_watcher s) s.

(** [fileWatcher.watch(...)]: a new watcher object. *)
Definition fileWatcher_watch (s : Helper) : Helper :=
  set_watchers (open_watchers s ++ [next_watcher s]) (S (next_watcher s)) s.

(** [sipSession.stop()] *)
Definition sip_stop (h : nat) (s : Helper) : Helper :=
  set_stop_requests (stop_requests s ++ [h]) s.

(** ** The helper's methods and callbacks *)

Definition start : Helper :=
  mkHelper None None None false false [] [] [] O [] [] 0
    (Absent true) None [] O [] O [] [Log_Starting] [] [].

Definition stopWatchingFile (s : Helper) : Helper :=
  match watcher s with
  | Some w => set_watcher None (watcher_close w s)
  | None => s
  end.

Definition watchForStreamStarted (s : Helper) : Helper :=
  let s1 := stopWatchingFile s in
  let w := next_watcher s1 in
  let s2 := setTimeout (WatcherTimeout w) (15 * 1000) s1 in
  let s3 := fileWatcher_watch s2 in
  set_watcher (Some w) s3.

(** The listener of ["add"] on watcher [w]. *)
Definition onAdd (w : nat) (filePath : string) (s : Helper) : Helper :=
  let fileName := pop (split "/" (pop (split "\" filePath))) in
  if String.eqb fileName audioPlaylistFile then
    let s1 := stopWatchingFile s in
    let s2 := sendSocketNotification VIDEO_STREAM_AVAILABLE s1 in
    set_ready_by (ready_by s2 ++ [w]) s2
  else s.

Definition is_some {A : Type} (o : option A) : bool :=
  match o with
  | Some _ => true
  | None => false
  end.

(** [startSession] up to its first [await]. *)
Definition startSession (camera : Camera) (type : TriggerType) (s : Helper) : Helper :=
  if is_some (sipSession s) || sessionRunning s then s
  else
    let s1 := set_sessionRunning true s in
    let s2 := toLog (Log_Preparing (camera_name camera) type) s1 in
    suspend (AwaitCleanUp camera) s2.

(** ... from the return of the clean-up to the second [await]; with
    [this.config] null the multiplication throws outside the [try]. *)
Definition startSession_cleaned (camera : Camera) (s : Helper) : Helper :=
  let s1 := watchForStreamStarted s in
  match config s1 with
  | None => s1
  | Some cfg =>
      let streamTimeOut := ringMinutesToStreamVideo cfg * 60 * 1000 in
      suspend (AwaitCreate camera streamTimeOut) s1
  end.

(** ... when [createRtpStreamingSession] resolved with session [h] ... *)
Definition startSession_created (h : nat) (streamTimeOut : Z) (s : Helper) : Helper :=
  let s1 := set_sipSession (Some h) s in
  setTimeout (SessionTimeout h) streamTimeOut s1.

(** ... and its [catch]. *)
Definition startSession_catch (message : string) (s : Helper) : Helper :=
  let s1 := toLog (Log_ErrorStartingStream message) s in
  set_sessionRunning false s1.

(** The subscriber of [onCallEnded]. *)
Definition onCallEnded (camera : Camera) (s : Helper) : Helper :=
  let s1 := toLog (Log_StreamEnded (camera_name camera)) s in
  let s2 := sendSocketNotification VIDEO_STREAM_ENDED s1 in
  let s3 := stopWatchingFile s2 in
  let s4 := set_sipSession None s3 in
  set_sessionRunning false s4.

Definition run_callback (cb : TimerCallback) (s : Helper) : Helper :=
  match cb with
  | SessionTimeout _ =>
      match sipSession s with
      | Some h => sip_stop h s
      | None => s
      end
  | WatcherTimeout _ => stopWatchingFile s
  end.

Definition onDoorbellPressed (camera : Camera) (s : Helper) : Helper :=
  if negb (is_some (sipSession s)) then startSession camera ring s else s.

Definition onMotionDetected (camera : Camera) (m : bool) (s : Helper) : Helper :=
  if negb (is_some (sipSession s)) && m then startSession camera motion s else s.

(** The subscriber of [onRefreshTokenUpdated], run through its file
    accesses. *)
Definition onRefreshTokenUpdated (newRefreshToken : string)
    (oldRefreshToken : option string) (s : Helper) : Helper :=
  let s1 := toLog Log_RefreshTokenUpdated s in
  match oldRefreshToken with
  | Some old =>
      if truthy oldRefreshToken then
        match envFile s1 with
        | Some currentConfig =>
            set_envFile (Some (replace currentConfig old newRefreshToken)) s1
        | None => s1
        end
      else s1
  | None => s1
  end.

Definition monitorRingActivity (s : Helper) : Helper :=
  set_discovering (S (discovering s)) (set_ringApi true s).

Definition monitor_catch (message : string) (s : Helper) : Helper :=
  let s1 := toLog (Log_MonitorError message) s in
  sendSocketNotification
    (DISPLAY_ERROR "Failed to initialize Ring connection. Check your refresh token.") s1.

(** The loop over [allCameras]; [false] when [this.config] is null and the
    body throws. *)
Fixpoint subscribeCameras (allCameras : list Camera) (s : Helper) : bool * Helper :=
  match allCameras with
  | [] => (true, s)
  | camera :: rest =>
      let s1 := set_subs (doorbell_subs s ++ [camera]) (motion_subs s) (activity_subs s) s in
      match config s1 with
      | None => (false, s1)
      | Some cfg =>
          let s2 :=
            if ringStreamMotion cfg
            then set_subs (doorbell_subs s1) (motion_subs s1 ++ [camera]) (activity_subs s1) s1
            else s1 in
          let s3 := set_subs (doorbell_subs s2) (motion_subs s2) (activity_subs s2 ++ [camera]) s2 in
          subscribeCameras rest s3
      end
  end.

Definition monitor_discovered (locations : nat) (allCameras : list Camera)
    (s : Helper) : Helper :=
  let s1 := toLog (Log_Found locations (List.length allCameras)) s in
  match subscribeCameras allCameras s1 with
  | (true, s2) => s2
  | (false, s2) => monitor_catch "Cannot read properties of null" s2
  end.

Definition socketNotificationReceived (notification : string) (payload : Config)
    (s : Helper) : Helper :=
  if String.eqb notification "BEGIN_RING_MONITORING" then
    let s1 := set_config (Some payload) s in
    let s2 :=
      match envFile s1 with
      | None =>
          set_envFile
            (Some ("RING_2FA_REFRESH_TOKEN=" ++ ring2faRefreshToken payload)%string) s1
      | Some _ => s1
      end in
    monitorRingActivity s2
  else s.

Definition stop (s : Helper) : Helper :=
  let s1 := toLog Log_Stopping s in
  let s2 := stopWatchingFile s1 in
  let s3 :=
    match sipSession s2 with
    | Some h => set_sipSession None (sip_stop h s2)
    | None => s2
    end in
  suspend AwaitStopCleanUp s3.

(** ** The event loop *)

(** One callback invocation.  Settlements name the suspended call by its
    position in [pending], timers by their position in [timers]. *)
Inductive Event :=
| SocketNotification (notification : string) (payload : Config)
| CamerasDiscovered (locations : nat) (allCameras : list Camera)
| ConnectionFailed (message : string)
| RefreshTokenUpdated (newRefreshToken : string) (oldRefreshToken : option string)
| DoorbellPressed (camera : Camera)
| MotionDetected (camera : Camera) (m : bool)
| MotionEvent (camera : Camera) (m : bool)
| CleanUpSettled (k : nat)
| SessionResolved (k : nat)
| SessionRejected (k : nat) (message : string)
| CallEnded (h : nat)
| FileAdded (w : nat) (filePath : string)
| Elapse (dt : Z)
| TimerFired (k : nat)
| ModuleStop
| DirectoryChanged (d : DirNode).

Fixpoint find_call (h : nat) (l : list (nat * Camera)) : option Camera :=
  match l with
  | [] => None
  | (h', c) :: rest => if Nat.eqb h' h then Some c else find_call h rest
  end.

Definition drop_call (h : nat) (l : list (nat * Camera)) : list (nat * Camera) :=
  filter (fun p => negb (Nat.eqb (fst p) h)) l.

(** An event the collaborators cannot produce in the current state (a
    listener of a closed watcher, a timer that is not due, a session that
    already ended) leaves the state as it is.  Time does not pass a timer
    that is due. *)
Definition step (s : Helper) (e : Event) : Helper :=
  match e with
  | SocketNotification notification payload =>
      socketNotificationReceived notification payload s
  | CamerasDiscovered locations allCameras =>
      match discovering s with
      | S n => monitor_discovered locations allCameras (set_discovering n s)
      | O => s
      end
  | ConnectionFailed message =>
      match discovering s with
      | S n => monitor_catch message (set_discovering n s)
      | O => s
      end
  | RefreshTokenUpdated newRefreshToken oldRefreshToken =>
      if ringApi s then onRefreshTokenUpdated newRefreshToken oldRefreshToken s else s
  | DoorbellPressed camera =>
      if subscribed camera (doorbell_subs s) then onDoorbellPressed camera s else s
  | MotionDetected camera m =>
      if subscribed camera (motion_subs s) then onMotionDetected camera m s else s
  | MotionEvent camera m =>
      if subscribed camera (activity_subs s)
      then toLog (Log_Motion (camera_name camera) m) s else s
  | CleanUpSettled k =>
      match nth_error (pending s) k with
      | Some (AwaitCleanUp camera) =>
          let (r, d) := cleanUpVideoStreamDirectory (directory s) in
          let s1 := set_directory d (resume k s) in
          match r with
          | Resolved => startSession_cleaned camera s1
          | Rejected => s1
          end
      | Some AwaitStopCleanUp =>
          set_directory (snd (cleanUpVideoStreamDirectory (directory s))) (resume k s)
      | _ => s
      end
  | SessionResolved k =>
      match nth_error (pending s) k with
      | Some (AwaitCreate camera streamTimeOut) =>
          let h := next_session s in
          let s1 := set_calls (calls s ++ [(h, camera)]) (S h) (resume k s) in
          startSession_created h streamTimeOut s1
      | _ => s
      end
  | SessionRejected k message =>
      match nth_error (pending s) k with
      | Some (AwaitCreate _ _) => startSession_catch message (resume k s)
      | _ => s
      end
  | CallEnded h =>
      match find_call h (calls s) with
      | Some camera =>
          onCallEnded camera (set_calls (drop_call h (calls s)) (next_session s) s)
      | None => s
      end
  | FileAdded w filePath =>
      if mem w (open_watchers s) && negb (ignored filePath)
      then onAdd w filePath s else s
  | Elapse dt =>
      if (0 <=? dt) && forallb (fun t => now s + dt <=? due t) (timers s)
      then set_now (now s + dt) s else s
  | TimerFired k =>
      match nth_error (timers s) k with
      | Some t =>
          if due t <=? now s
          then run_callback (callback t) (set_timers (remove_nth k (timers s)) s)
          else s
      | None => s
      end
  | ModuleStop => stop s
  | DirectoryChanged d => set_directory d s
  end.

Definition run (s : Helper) (events : list Event) : Helper :=
  fold_left step events s.

(** ** Notions the properties are stated with *)

(** The Session as the two flags encode it. *)
Definition session_state (s : Helper) : SessionState :=
  match sipSession s with
  | Some _ => Active
  | None => if sessionRunning s then Starting else Idle
  end.

Definition is_start (k : Continuation) : bool :=
  match k with
  | AwaitCleanUp _ | AwaitCreate _ _ => true
  | AwaitStopCleanUp => false
  end.

(** Sessions that are not idle: the [startSession] calls that passed the
    guard and are suspended, and the created sessions that have not
    ended. *)
Definition in_flight (s : Helper) : nat :=
  List.length (filter is_start (pending s)) + List.length (calls s).

Definition is_trigger (e : Event) : bool :=
  match e with
  | DoorbellPressed _ | MotionDetected _ _ => true
  | _ => false
  end.

Definition is_timer_fired (e : Event) : bool :=
  match e with
  | TimerFired _ => true
  | _ => false
  end.

Definition option_list {A : Type} (o : option A) : list A :=
  match o with
  | Some a => [a]
  | None => []
  end.

(** Whether the operation a timer was set for is still going on. *)
Definition owner_active (s : Helper) (t : Timer) : bool :=
  match callback t with
  | SessionTimeout h => mem h (map fst (calls s))
  | WatcherTimeout w => mem w (open_watchers s)
  end.

Definition is_available (n : Notification) : bool :=
  match n with
  | VIDEO_STREAM_AVAILABLE => true
  | _ => false
  end.

Definition is_error (n : Notification) : bool :=
  match n with
  | DISPLAY_ERROR _ => true
  | _ => false
  end.

(** ** Scenarios *)

Definition front_door : Camera := mkCamera 1 "Front Door".

Definition one_minute : Config := mkConfig "ABC" true 1.

Definition playlist_path : string := "/opt/MagicMirror/modules/MMM-Ring/public/stream.m3u8".

(** Monitoring begins and one camera is found. *)
Definition monitoring : list Event :=
  [ SocketNotification "BEGIN_RING_MONITORING" one_minute;
    CamerasDiscovered 1 [front_door] ].

(** A doorbell press up to the point where the session exists. *)
Definition doorbell_session : list Event :=
  [ DoorbellPressed front_door; CleanUpSettled 0; SessionResolved 0 ].

(** The playlist never shows up; the watch window lapses, then the call
    ends. *)
Definition ended_without_ready : list Event :=
  monitoring ++ doorbell_session ++ [ Elapse 15000; TimerFired 0; CallEnded 0 ].

(** The session creation fails. *)
Definition creation_failure : list Event :=
  monitoring ++ [ DoorbellPressed front_door; CleanUpSettled 0;
                  SessionRejected 0 "connection refused" ].

(** ... and a playlist appears in the output directory afterwards. *)
Definition creation_failure_then_file : list Event :=
  creation_failure ++ [ Elapse 2000; FileAdded 0 playlist_path ].

(** A session that ends after one second, a second session begun at 50 s. *)
Definition second_session : list Event :=
  monitoring ++ doorbell_session ++
  [ FileAdded 0 playlist_path; Elapse 1000; CallEnded 0;
    Elapse 14000; TimerFired 0; Elapse 35000 ] ++ doorbell_session.

(** ... which the first session's timer stops at 60 s. *)
Definition late_firing : list Event :=
  second_session ++ [ Elapse 10000; TimerFired 0 ].

(** A watcher closed by the timer of the watcher before it: the first
    attempt fails at once, the second starts at 10 s. *)
Definition short_window : list Event :=
  creation_failure ++
  [ Elapse 10000; DoorbellPressed front_door; CleanUpSettled 0; SessionResolved 0;
    Elapse 5000; TimerFired 0 ].

(** The part of the state the watcher's invariant reads. *)
Definition watch_view (s : Helper)
  : list nat * option nat * nat * list nat * nat :=
  (open_watchers s, watcher s, next_watcher s, ready_by s,
   List.length (filter is_available (notifications s))).

(** ** Invariants of the reachable states *)

Definition SessionInv (s : Helper) : Prop :=
  (in_flight s <= 1)%nat /\
  (sessionRunning s = false -> in_flight s = O) /\
  (forall h, sipSession s = Some h -> In h (map fst (calls s))).

Definition WatchInv (s : Helper) : Prop :=
  open_watchers s = option_list (watcher s) /\
  (forall w, watcher s = Some w -> (w < next_watcher s)%nat) /\
  NoDup (ready_by s) /\
  (forall w, In w (ready_by s) -> (w < next_watcher s)%nat /\ watcher s <> Some w) /\
  List.length (filter is_available (notifications s)) = List.length (ready_by s).

Definition TimeInv (s : Helper) : Prop :=
  (forall t, In t (timers s) -> now s <= due t) /\
  (forall w, watcher s = Some w ->
     exists d, In (mkTimer d (WatcherTimeout w)) (timers s) /\ d <= now s + 15000).

(** ** Further notions *)

Definition is_ended (n : Notification) : bool :=
  match n with
  | VIDEO_STREAM_ENDED => true
  | _ => false
  end.

(** The events whose handler writes the env file. *)
Definition writes_envFile (e : Event) : bool :=
  match e with
  | SocketNotification _ _ => true
  | RefreshTokenUpdated _ oldRefreshToken => truthy oldRefreshToken
  | _ => false
  end.

(** No configuration received by this event enables motion streaming. *)
Definition motion_disabled (e : Event) : bool :=
  match e with
  | SocketNotification _ payload => negb (ringStreamMotion payload)
  | _ => true
  end.

Definition is_regular (entry : string * EntryKind) : bool :=
  match snd entry with
  | RegularFile => true
  | SubDirectory | ProtectedFile => false
  end.

Fixpoint has_char (c : ascii) (s : string) : bool :=
  match s with
  | EmptyString => false
  | String d s' => Ascii.eqb d c || has_char c s'
  end.

(** Motion streaming was never enabled. *)
Definition MotionOff (s : Helper) : Prop :=
  motion_subs s = [] /\
  (forall cfg, config s = Some cfg -> ringStreamMotion cfg = false).

(** A session start that died in the clean-up: the flag is set and nothing
    is left that could reset it. *)
Definition Stuck (s : Helper) : Prop :=
  sessionRunning s = true /\ in_flight s = O.

(** Every session created so far either is live or has ended with one
    VIDEO_STREAM_ENDED. *)
Definition EndedInv (s : Helper) : Prop :=
  (List.length (filter is_ended (notifications s)) + List.length (calls s))%nat
  = next_session s.

(** Cameras are subscribed only once a configuration was received. *)
Definition ConfigInv (s : Helper) : Prop :=
  config s = None ->
  doorbell_subs s = [] /\ motion_subs s = [] /\ discovering s = O.

(** ** Facts about lists *)

Lemma filter_length_snoc {A : Type} (f : A -> bool) (l : list A) (x : A) :
  List.length (filter f (l ++ [x])) =
  (List.length (filter f l) + (if f x then 1 else 0))%nat.
Proof.
  rewrite filter_app, length_app. simpl. destruct (f x); reflexivity.
Qed.

Lemma filter_length_remove_nth {A : Type} (f : A -> bool) :
  forall (l : list A) (k : nat) (x : A),
    nth_error l k = Some x ->
    List.length (filter f l) =
    (List.length (filter f (remove_nth k l)) + (if f x then 1 else 0))%nat.
Proof.
  induction l as [|a l IH]; intros [|k] x H; simpl in H; try discriminate.
  - injection H as ->. simpl. destruct (f x); simpl; lia.
  - simpl. specialize (IH k x H). destruct (f a); simpl; lia.
Qed.

Lemma In_remove_nth {A : Type} :
  forall (l : list A) (k : nat) (x : A), In x (remove_nth k l) -> In x l.
Proof.
  induction l as [|a l IH]; intros [|k] x H; simpl in *; auto.
  destruct H as [H|H]; eauto.
Qed.

Lemma In_remove_nth_other {A : Type} :
  forall (l : list A) (k : nat) (x t : A),
    In x l -> nth_error l k = Some t -> x <> t -> In x (remove_nth k l).
Proof.
  induction l as [|a l IH]; intros [|k] x t Hin Hk Hne; simpl in *; try contradiction.
  - injection Hk as ->. destruct Hin as [H|H]; [congruence | exact H].
  - destruct Hin as [H|H]; [left; exact H | right; eauto].
Qed.

Lemma mem_In (n : nat) (l : list nat) : mem n l = true <-> In n l.
Proof.
  unfold mem. rewrite existsb_exists. split.
  - intros (x & Hx & E). apply Nat.eqb_eq in E. subst. exact Hx.
  - intros H. exists n. split; [exact H | apply Nat.eqb_refl].
Qed.

Lemma find_call_In (h : nat) :
  forall l c, find_call h l = Some c -> In h (map fst l).
Proof.
  induction l as [|[h' c'] l IH]; intros c H; simpl in *; [discriminate|].
  destruct (Nat.eqb h' h) eqn:E.
  - left. apply Nat.eqb_eq. exact E.
  - right. eauto.
Qed.

Lemma In_find_call (h : nat) :
  forall l, In h (map fst l) -> exists c, find_call h l = Some c.
Proof.
  induction l as [|[h' c'] l IH]; intros H; simpl in *; [contradiction|].
  destruct (Nat.eqb h' h) eqn:E; [eauto|].
  destruct H as [H|H]; [|auto].
  subst. rewrite Nat.eqb_refl in E. discriminate.
Qed.

Lemma drop_call_single (h : nat) (l : list (nat * Camera)) (c : Camera) :
  find_call h l = Some c -> (List.length l <= 1)%nat -> drop_call h l = [].
Proof.
  destruct l as [|[h' c'] [|p l]]; simpl; intros H L; try discriminate; try lia.
  destruct (Nat.eqb h' h); [reflexivity | discriminate].
Qed.

(** ** At most one session: [SessionInv] is preserved *)

Lemma stopWatchingFile_frame (s : Helper) :
  pending (stopWatchingFile s) = pending s /\
  calls (stopWatchingFile s) = calls s /\
  sipSession (stopWatchingFile s) = sipSession s /\
  sessionRunning (stopWatchingFile s) = sessionRunning s /\
  config (stopWatchingFile s) = config s.
Proof. unfold stopWatchingFile. destruct (watcher s); repeat split. Qed.

Lemma watchForStreamStarted_frame (s : Helper) :
  pending (watchForStreamStarted s) = pending s /\
  calls (watchForStreamStarted s) = calls s /\
  sipSession (watchForStreamStarted s) = sipSession s /\
  sessionRunning (watchForStreamStarted s) = sessionRunning s /\
  config (watchForStreamStarted s) = config s.
Proof.
  unfold watchForStreamStarted. cbn.
  destruct (stopWatchingFile_frame s) as (-> & -> & -> & -> & ->). repeat split.
Qed.

Lemma subscribeCameras_frame :
  forall l s,
    pending (snd (subscribeCameras l s)) = pending s /\
    calls (snd (subscribeCameras l s)) = calls s /\
    sipSession (snd (subscribeCameras l s)) = sipSession s /\
    sessionRunning (snd (subscribeCameras l s)) = sessionRunning s.
Proof.
  induction l as [|c l IH]; intros s; simpl; [repeat split|].
  destruct (config s) as [cfg|]; simpl; [|repeat split].
  destruct (ringStreamMotion cfg);
    match goal with |- context [subscribeCameras l ?x] =>
      destruct (IH x) as (-> & -> & -> & ->) end; repeat split.
Qed.

Lemma SessionInv_intro (s s' : Helper) :
  SessionInv s ->
  List.length (filter is_start (pending s')) = List.length (filter is_start (pending s)) ->
  calls s' = calls s -> sipSession s' = sipSession s \/ sipSession s' = None ->
  sessionRunning s' = sessionRunning s ->
  SessionInv s'.
Proof.
  unfold SessionInv, in_flight. intros (H1 & H2 & H3) Ep Ec Es Er.
  rewrite Ep, Ec, Er. repeat split; auto.
  intros h Hh. destruct Es as [Es|Es]; rewrite Es in Hh; [auto | discriminate].
Qed.

Lemma startSession_SessionInv (c : Camera) (t : TriggerType) (s : Helper) :
  SessionInv s -> SessionInv (startSession c t s).
Proof.
  intros HI. pose proof HI as (H1 & H2 & H3). unfold startSession.
  destruct (sipSession s) as [h|] eqn:Es; simpl; [exact HI|].
  destruct (sessionRunning s) eqn:Er; [exact HI|].
  specialize (H2 eq_refl). unfold SessionInv, in_flight in *. simpl.
  rewrite filter_length_snoc, Es. simpl.
  repeat split; try lia; discriminate.
Qed.

Lemma step_SessionInv (s : Helper) (e : Event) : SessionInv s -> SessionInv (step s e).
Proof.
  intros HI. destruct e; simpl.
  - unfold socketNotificationReceived. destruct (String.eqb _ _); [|exact HI].
    apply (SessionInv_intro s); auto. simpl. destruct (envFile s); reflexivity.
    simpl. destruct (envFile s); reflexivity.
    simpl. destruct (envFile s); auto.
    simpl. destruct (envFile s); auto.
  - destruct (discovering s) as [|n]; [exact HI|].
    unfold monitor_discovered.
    match goal with |- context [subscribeCameras ?l ?x] =>
      pose proof (subscribeCameras_frame l x) as F; destruct (subscribeCameras l x) as [[|] s2] end;
    simpl in F; destruct F as (F1 & F2 & F3 & F4);
    apply (SessionInv_intro s); simpl; auto; rewrite ?F1; auto.
  - destruct (discovering s) as [|n]; [exact HI|].
    apply (SessionInv_intro s); auto.
  - destruct (ringApi s); [|exact HI]. unfold onRefreshTokenUpdated.
    destruct oldRefreshToken as [old|]; [|apply (SessionInv_intro s); auto].
    destruct (truthy _); [|apply (SessionInv_intro s); auto].
    simpl. destruct (envFile s); apply (SessionInv_intro s); auto.
  - destruct (subscribed _ _); [|exact HI]. unfold onDoorbellPressed.
    destruct (negb _); [apply startSession_SessionInv|]; exact HI.
  - destruct (subscribed _ _); [|exact HI]. unfold onMotionDetected.
    destruct (_ && _); [apply startSession_SessionInv|]; exact HI.
  - destruct (subscribed _ _); [|exact HI]. apply (SessionInv_intro s); auto.
  - destruct (nth_error (pending s) k) as [[camera|camera t|]|] eqn:Ek; try exact HI.
    + destruct (cleanUpVideoStreamDirectory (directory s)) as [r d].
      pose proof (filter_length_remove_nth is_start _ _ _ Ek) as L. simpl in L.
      destruct HI as (H1 & H2 & H3). unfold in_flight in *.
      assert (Er : sessionRunning s = true).
      { destruct (sessionRunning s); [reflexivity|]. specialize (H2 eq_refl). lia. }
      destruct r.
      * unfold startSession_cleaned.
        destruct (watchForStreamStarted_frame (set_directory d (resume k s)))
          as (F1 & F2 & F3 & F4 & F5). simpl in *.
        rewrite F5. destruct (config s) as [cfg|]; unfold SessionInv, in_flight; simpl;
          rewrite ?filter_length_snoc, F1, F2, F3, F4, Er; simpl;
          repeat split; try lia; auto; discriminate.
      * unfold SessionInv, in_flight; simpl. rewrite Er.
        repeat split; try lia; auto; discriminate.
    + apply (SessionInv_intro s); auto. simpl.
      rewrite (filter_length_remove_nth is_start _ _ _ Ek). simpl. lia.
  - destruct (nth_error (pending s) k) as [[camera|camera t|]|] eqn:Ek; try exact HI.
    pose proof (filter_length_remove_nth is_start _ _ _ Ek) as L. simpl in L.
    destruct HI as (H1 & H2 & H3). unfold SessionInv, in_flight in *. simpl.
    rewrite length_app, map_app. simpl.
    repeat split; try lia.
    + intros Er. specialize (H2 Er). lia.
    + intros h Hh. injection Hh as <-. apply in_or_app. right. left. reflexivity.
  - destruct (nth_error (pending s) k) as [[camera|camera t|]|] eqn:Ek; try exact HI.
    pose proof (filter_length_remove_nth is_start _ _ _ Ek) as L. simpl in L.
    destruct HI as (H1 & H2 & H3). unfold SessionInv, in_flight in *. simpl.
    repeat split; try lia. intros h Hh. apply H3 in Hh.
    destruct (calls s); [contradiction | simpl in *; lia].
  - destruct (find_call h (calls s)) as [camera|] eqn:Ef; [|exact HI].
    destruct HI as (H1 & H2 & H3). unfold in_flight in *.
    assert (Hc : drop_call h (calls s) = []).
    { apply (drop_call_single h _ camera Ef). lia. }
    assert (Hp : List.length (filter is_start (pending s)) = O).
    { destruct (calls s); [discriminate | simpl in *; lia]. }
    unfold onCallEnded.
    match goal with |- SessionInv (set_sessionRunning _ (set_sipSession _ (stopWatchingFile ?x))) =>
      destruct (stopWatchingFile_frame x) as (F1 & F2 & F3 & F4 & F5) end.
    unfold SessionInv, in_flight. simpl in *. rewrite F1, F2, Hc, Hp. simpl.
    repeat split; auto; discriminate.
  - destruct (_ && _); [|exact HI]. unfold onAdd.
    destruct (String.eqb _ _); [|exact HI].
    destruct (stopWatchingFile_frame s) as (F1 & F2 & F3 & F4 & F5).
    apply (SessionInv_intro s); simpl; auto. rewrite F1; reflexivity.
  - destruct (_ && _); [|exact HI]. apply (SessionInv_intro s); auto.
  - destruct (nth_error (timers s) k) as [t|]; [|exact HI].
    destruct (due t <=? now s)%Z; [|exact HI].
    destruct (callback t); simpl.
    + destruct (sipSession s) eqn:Es; apply (SessionInv_intro s); simpl; auto.
    + match goal with |- SessionInv (stopWatchingFile ?x) =>
        destruct (stopWatchingFile_frame x) as (F1 & F2 & F3 & F4 & F5) end.
      apply (SessionInv_intro s); simpl in *; auto. rewrite F1; reflexivity.
  - unfold stop.
    destruct (stopWatchingFile_frame (toLog Log_Stopping s)) as (F1 & F2 & F3 & F4 & F5).
    simpl in *. rewrite F3.
    destruct (sipSession s) eqn:Es; apply (SessionInv_intro s); simpl; auto;
      rewrite ?filter_length_snoc, ?F1; simpl; auto.
  - apply (SessionInv_intro s); auto.
Qed.

(** ** One watcher, one readiness signal: [WatchInv] is preserved *)

Lemma WatchInv_view (s s' : Helper) :
  watch_view s' = watch_view s -> WatchInv s -> WatchInv s'.
Proof.
  unfold watch_view, WatchInv. intros E. injection E as -> -> -> -> ->. auto.
Qed.

Lemma stopWatchingFile_view (s : Helper) :
  open_watchers s = option_list (watcher s) ->
  watch_view (stopWatchingFile s) =
  ([], None, next_watcher s, ready_by s,
   List.length (filter is_available (notifications s))).
Proof.
  unfold stopWatchingFile, watch_view. intros H.
  destruct (watcher s) as [w|] eqn:Ew; simpl in *; rewrite ?Ew, H; simpl;
    rewrite ?Nat.eqb_refl; reflexivity.
Qed.

Lemma WatchInv_disarmed (s s' : Helper) :
  WatchInv s ->
  watch_view s' =
  ([], None, next_watcher s, ready_by s,
   List.length (filter is_available (notifications s))) ->
  WatchInv s'.
Proof.
  unfold watch_view, WatchInv. intros (W1 & W2 & W3 & W4 & W5) E.
  injection E as -> -> -> -> ->.
  repeat split; auto; try discriminate. apply W4; assumption.
Qed.

Lemma stopWatchingFile_WatchInv (s : Helper) :
  WatchInv s -> WatchInv (stopWatchingFile s).
Proof.
  intros HI. apply (WatchInv_disarmed s _ HI).
  apply stopWatchingFile_view. apply HI.
Qed.

Lemma watchForStreamStarted_view (s : Helper) :
  open_watchers s = option_list (watcher s) ->
  watch_view (watchForStreamStarted s) =
  ([next_watcher s], Some (next_watcher s), S (next_watcher s), ready_by s,
   List.length (filter is_available (notifications s))).
Proof.
  intros H. pose proof (stopWatchingFile_view s H) as E.
  unfold watch_view in *. unfold watchForStreamStarted. simpl.
  injection E as -> _ -> -> ->. reflexivity.
Qed.

Lemma WatchInv_armed (s s' : Helper) :
  WatchInv s ->
  watch_view s' =
  ([next_watcher s], Some (next_watcher s), S (next_watcher s), ready_by s,
   List.length (filter is_available (notifications s))) ->
  WatchInv s'.
Proof.
  unfold watch_view, WatchInv. intros (W1 & W2 & W3 & W4 & W5) E.
  injection E as -> -> -> -> ->.
  repeat split; auto.
  - intros w Hw. injection Hw as <-. lia.
  - apply W4 in H. lia.
  - intros Hw. injection Hw as <-. apply W4 in H. lia.
Qed.

Lemma onAdd_WatchInv (w : nat) (p : string) (s : Helper) :
  mem w (open_watchers s) = true -> WatchInv s -> WatchInv (onAdd w p s).
Proof.
  intros Hm HI. unfold onAdd. destruct (String.eqb _ _); [|exact HI].
  pose proof HI as (W1 & W2 & W3 & W4 & W5).
  pose proof (stopWatchingFile_view s W1) as E.
  apply mem_In in Hm. rewrite W1 in Hm.
  destruct (watcher s) as [w'|] eqn:Ew; simpl in Hm; [|contradiction].
  destruct Hm as [->|[]].
  unfold watch_view in E. injection E as E1 E2 E3 E4 E5.
  unfold WatchInv. simpl. rewrite E1, E2, E3, E4, filter_length_snoc, E5, length_app. simpl.
  repeat split; auto; try discriminate.
  - apply NoDup_app; [exact W3 | repeat constructor; intros [] | ].
    intros x Hx [<-|[]]. apply W4 in Hx. destruct Hx as [_ Hx]. apply Hx. reflexivity.
  - apply in_app_or in H. destruct H as [H|[<-|[]]]; [apply W4 in H; lia | auto].
Qed.

Lemma subscribeCameras_view :
  forall l s, watch_view (snd (subscribeCameras l s)) = watch_view s.
Proof.
  induction l as [|c l IH]; intros s; simpl; [reflexivity|].
  destruct (config s) as [cfg|]; simpl; [|reflexivity].
  destruct (ringStreamMotion cfg); rewrite IH; reflexivity.
Qed.

Ltac same_view s HI :=
  apply (WatchInv_view s);
  [ unfold watch_view; simpl; rewrite ?filter_app; simpl; rewrite ?app_nil_r; reflexivity
  | exact HI ].

Lemma step_WatchInv (s : Helper) (e : Event) : WatchInv s -> WatchInv (step s e).
Proof.
  intros HI. destruct e; simpl.
  - unfold socketNotificationReceived. destruct (String.eqb _ _); [|exact HI].
    destruct (envFile s) eqn:E; apply (WatchInv_view s); auto;
      unfold watch_view; simpl; rewrite E; reflexivity.
  - destruct (discovering s) as [|n]; [exact HI|].
    unfold monitor_discovered.
    match goal with |- context [subscribeCameras ?l ?x] =>
      pose proof (subscribeCameras_view l x) as F; destruct (subscribeCameras l x) as [[|] s2] end;
    unfold watch_view in F; simpl in F; injection F as F1 F2 F3 F4 F5;
    apply (WatchInv_view s); auto;
    unfold watch_view; simpl; rewrite ?filter_app; simpl; rewrite ?app_nil_r;
    rewrite F1, F2, F3, F4, F5; reflexivity.
  - destruct (discovering s) as [|n]; [exact HI|]. same_view s HI.
  - destruct (ringApi s); [|exact HI]. unfold onRefreshTokenUpdated.
    destruct oldRefreshToken as [old|]; [|same_view s HI].
    destruct (truthy _); [|same_view s HI].
    simpl. destruct (envFile s); same_view s HI.
  - destruct (subscribed _ _); [|exact HI]. unfold onDoorbellPressed, startSession.
    destruct (negb _); [|exact HI]. destruct (_ || _); [exact HI|]. same_view s HI.
  - destruct (subscribed _ _); [|exact HI]. unfold onMotionDetected, startSession.
    destruct (_ && _); [|exact HI]. destruct (_ || _); [exact HI|]. same_view s HI.
  - destruct (subscribed _ _); [|exact HI]. same_view s HI.
  - destruct (nth_error (pending s) k) as [[camera|camera t|]|] eqn:Ek; try exact HI.
    + destruct (cleanUpVideoStreamDirectory (directory s)) as [r d].
      destruct r; [|same_view s HI].
      unfold startSession_cleaned.
      set (x := set_directory d (resume k s)).
      assert (Hx : WatchInv x) by (subst x; same_view s HI).
      pose proof (watchForStreamStarted_view x (proj1 Hx)) as V.
      destruct (config (watchForStreamStarted x));
        apply (WatchInv_armed x); auto.
  - destruct (nth_error (pending s) k) as [[camera|camera t|]|] eqn:Ek; exact HI.
  - destruct (nth_error (pending s) k) as [[camera|camera t|]|] eqn:Ek; exact HI.
  - destruct (find_call h (calls s)) as [camera|] eqn:Ef; [|exact HI].
    unfold onCallEnded.
    match goal with |- WatchInv (set_sessionRunning _ (set_sipSession _ (stopWatchingFile ?y))) =>
      set (x := y) end.
    assert (Hx : WatchInv x) by (subst x; same_view s HI).
    apply (WatchInv_disarmed x); auto.
    apply (stopWatchingFile_view x (proj1 Hx)).
  - destruct (mem w (open_watchers s)) eqn:Hm; simpl; [|exact HI].
    destruct (negb _); [|exact HI]. apply onAdd_WatchInv; assumption.
  - destruct (_ && _); [|exact HI]. same_view s HI.
  - destruct (nth_error (timers s) k) as [t|]; [|exact HI].
    destruct (due t <=? now s)%Z; [|exact HI].
    destruct (callback t); simpl.
    + destruct (sipSession s) eqn:Es; same_view s HI.
    + apply stopWatchingFile_WatchInv. same_view s HI.
  - unfold stop.
    set (x := toLog Log_Stopping s).
    assert (Hx : WatchInv x) by (subst x; same_view s HI).
    pose proof (stopWatchingFile_view x (proj1 Hx)) as V.
    apply (WatchInv_disarmed x); auto. rewrite <- V.
    destruct (sipSession (stopWatchingFile x)); reflexivity.
  - same_view s HI.
Qed.

(** ** Timers: [TimeInv] is preserved *)

Lemma timer_delay_pos (d : Z) : 1 <= timer_delay d.
Proof.
  unfold timer_delay. destruct (d <? 1) eqn:E; simpl; [lia|].
  destruct (2147483647 <? d); lia.
Qed.

Lemma TimeInv_same (s s' : Helper) :
  timers s' = timers s -> now s' = now s -> watcher s' = watcher s \/ watcher s' = None ->
  TimeInv s -> TimeInv s'.
Proof.
  unfold TimeInv. intros -> -> Ew (T1 & T2). split; [exact T1|].
  intros w Hw. destruct Ew as [Ew|Ew]; rewrite Ew in Hw; [auto | discriminate].
Qed.

Lemma stopWatchingFile_time (s : Helper) :
  timers (stopWatchingFile s) = timers s /\
  now (stopWatchingFile s) = now s /\
  watcher (stopWatchingFile s) = None /\
  next_watcher (stopWatchingFile s) = next_watcher s.
Proof.
  unfold stopWatchingFile. destruct (watcher s) eqn:E; simpl; auto.
Qed.

Lemma setTimeout_TimeInv (cb : TimerCallback) (d : Z) (s : Helper) :
  TimeInv s -> TimeInv (setTimeout cb d s).
Proof.
  intros (T1 & T2). split; simpl.
  - intros t Ht. apply in_app_or in Ht. destruct Ht as [Ht|[<-|[]]]; [auto|].
    simpl. pose proof (timer_delay_pos d). lia.
  - intros w Hw. destruct (T2 w Hw) as (x & Hx & Hd).
    exists x. split; [apply in_or_app; left; exact Hx | exact Hd].
Qed.

Lemma watchForStreamStarted_TimeInv (s : Helper) :
  TimeInv s -> TimeInv (watchForStreamStarted s).
Proof.
  intros (T1 & T2). unfold watchForStreamStarted.
  destruct (stopWatchingFile_time s) as (F1 & F2 & F3 & F4).
  split; simpl; rewrite F1, F2, F4.
  - intros t Ht. apply in_app_or in Ht. destruct Ht as [Ht|[<-|[]]]; [auto|].
    simpl. unfold timer_delay. simpl. lia.
  - intros w Hw. injection Hw as <-. exists (now s + 15000). split; [|lia].
    apply in_or_app. right. left. reflexivity.
Qed.

Lemma step_TimeInv (s : Helper) (e : Event) : TimeInv s -> TimeInv (step s e).
Proof.
  intros HI. destruct e; simpl.
  - unfold socketNotificationReceived. destruct (String.eqb _ _); [|exact HI].
    simpl. destruct (envFile s); exact HI.
  - destruct (discovering s) as [|n]; [exact HI|].
    unfold monitor_discovered.
    assert (F : forall l x, timers (snd (subscribeCameras l x)) = timers x /\
                             now (snd (subscribeCameras l x)) = now x /\
                             watcher (snd (subscribeCameras l x)) = watcher x).
    { induction l as [|c l IH]; intros x; simpl; [auto|].
      destruct (config x) as [cfg|]; simpl; [|auto].
      destruct (ringStreamMotion cfg);
        match goal with |- context [subscribeCameras l ?y] =>
          destruct (IH y) as (-> & -> & ->) end; auto. }
    match goal with |- context [subscribeCameras ?l ?x] =>
      destruct (F l x) as (F1 & F2 & F3); destruct (subscribeCameras l x) as [[|] s2] end;
    simpl in *; apply (TimeInv_same s); simpl; auto.
  - destruct (discovering s) as [|n]; exact HI.
  - destruct (ringApi s); [|exact HI]. unfold onRefreshTokenUpdated.
    destruct oldRefreshToken as [old|]; [|exact HI].
    destruct (truthy _); [|exact HI].
    simpl. destruct (envFile s); exact HI.
  - destruct (subscribed _ _); [|exact HI]. unfold onDoorbellPressed, startSession.
    destruct (negb _); [|exact HI]. destruct (_ || _); exact HI.
  - destruct (subscribed _ _); [|exact HI]. unfold onMotionDetected, startSession.
    destruct (_ && _); [|exact HI]. destruct (_ || _); exact HI.
  - destruct (subscribed _ _); exact HI.
  - destruct (nth_error (pending s) k) as [[camera|camera t|]|] eqn:Ek; try exact HI.
    destruct (cleanUpVideoStreamDirectory (directory s)) as [r d].
    destruct r; [|exact HI].
    unfold startSession_cleaned.
    set (x := set_directory d (resume k s)).
    assert (Hx : TimeInv x) by exact HI.
    apply watchForStreamStarted_TimeInv in Hx.
    destruct (config (watchForStreamStarted x)); exact Hx.
  - destruct (nth_error (pending s) k) as [[camera|camera t|]|] eqn:Ek; try exact HI.
    unfold startSession_created. apply setTimeout_TimeInv. exact HI.
  - destruct (nth_error (pending s) k) as [[camera|camera t|]|] eqn:Ek; exact HI.
  - destruct (find_call h (calls s)) as [camera|] eqn:Ef; [|exact HI].
    unfold onCallEnded.
    match goal with |- TimeInv (set_sessionRunning _ (set_sipSession _ (stopWatchingFile ?y))) =>
      destruct (stopWatchingFile_time y) as (F1 & F2 & F3 & F4) end.
    apply (TimeInv_same s); simpl; auto.
  - destruct (_ && _); [|exact HI]. unfold onAdd.
    destruct (String.eqb _ _); [|exact HI].
    destruct (stopWatchingFile_time s) as (F1 & F2 & F3 & F4).
    apply (TimeInv_same s); simpl; auto.
  - destruct (0 <=? dt) eqn:E0; simpl; [|exact HI].
    destruct (forallb _ _) eqn:Ef; [|exact HI].
    rewrite forallb_forall in Ef. destruct HI as (T1 & T2). split; simpl.
    + intros t Ht. apply Ef in Ht. lia.
    + intros w Hw. destruct (T2 w Hw) as (x & Hx & Hd). exists x. split; [exact Hx | lia].
  - destruct (nth_error (timers s) k) as [t|] eqn:Ek; [|exact HI].
    destruct (due t <=? now s)%Z; [|exact HI].
    destruct HI as (T1 & T2).
    destruct (callback t) eqn:Ec; simpl.
    + assert (TimeInv (set_timers (remove_nth k (timers s)) s)).
      { split; simpl.
        - intros x Hx. apply T1. eapply In_remove_nth; eauto.
        - intros w Hw. destruct (T2 w Hw) as (x & Hx & Hd). exists x. split; [|exact Hd].
          eapply In_remove_nth_other; eauto. intros <-. simpl in Ec. discriminate. }
      destruct (sipSession s); exact H.
    + match goal with |- TimeInv (stopWatchingFile ?y) =>
        destruct (stopWatchingFile_time y) as (F1 & F2 & F3 & F4) end.
      split; [rewrite F1, F2|rewrite F3; discriminate]; simpl.
      intros x Hx. apply T1. eapply In_remove_nth; eauto.
  - unfold stop.
    destruct (stopWatchingFile_time (toLog Log_Stopping s)) as (F1 & F2 & F3 & F4).
    apply (TimeInv_same s); auto; simpl;
      destruct (sipSession (stopWatchingFile (toLog Log_Stopping s))); simpl; auto.
  - exact HI.
Qed.

(** ** Reachable states *)

Lemma run_snoc (s : Helper) (events : list Event) (e : Event) :
  run s (events ++ [e]) = step (run s events) e.
Proof. unfold run. rewrite fold_left_app. reflexivity. Qed.

Lemma run_invariant (P : Helper -> Prop) :
  (forall s e, P s -> P (step s e)) ->
  forall events s, P s -> P (run s events).
Proof.
  intros Hstep. induction events as [|e events IH]; intros s Hs; simpl; [exact Hs|].
  apply IH. apply Hstep. exact Hs.
Qed.

Lemma start_SessionInv : SessionInv start.
Proof. repeat split; simpl; auto; discriminate. Qed.

Lemma start_WatchInv : WatchInv start.
Proof.
  repeat split; simpl; auto; try discriminate; try contradiction; constructor.
Qed.

Lemma start_TimeInv : TimeInv start.
Proof. split; simpl; [contradiction | discriminate]. Qed.

Lemma reachable_SessionInv (events : list Event) : SessionInv (run start events).
Proof. apply (run_invariant SessionInv step_SessionInv). exact start_SessionInv. Qed.

Lemma reachable_WatchInv (events : list Event) : WatchInv (run start events).
Proof. apply (run_invariant WatchInv step_WatchInv). exact start_WatchInv. Qed.

Lemma reachable_TimeInv (events : list Event) : TimeInv (run start events).
Proof. apply (run_invariant TimeInv step_TimeInv). exact start_TimeInv. Qed.

Lemma session_state_Idle (s : Helper) :
  session_state s = Idle <-> sipSession s = None /\ sessionRunning s = false.
Proof.
  unfold session_state. destruct (sipSession s), (sessionRunning s);
    split; intros H; try discriminate; auto; destruct H; discriminate.
Qed.

Lemma startSession_busy (camera : Camera) (type : TriggerType) (s : Helper) :
  session_state s <> Idle -> startSession camera type s = s.
Proof.
  unfold session_state, startSession.
  destruct (sipSession s), (sessionRunning s); simpl; congruence.
Qed.

(** C1 (exclusivity).  After any sequence of events at most one session is
    not idle: the suspended [startSession] calls and the live sessions
    together number at most one.  [startSession], entered while idle, has
    set [sessionRunning] by the time it first suspends, and a doorbell or
    motion event that arrives while the session is Starting or Active
    leaves the helper exactly as it was. *)
Theorem startSession_exclusive (events : list Event) :
  let s := run start events in
  (in_flight s <= 1)%nat /\
  (forall camera type, session_state s = Idle ->
     sessionRunning (startSession camera type s) = true /\
     session_state (startSession camera type s) = Starting /\
     in_flight (startSession camera type s) = 1%nat) /\
  (forall e, is_trigger e = true -> session_state s <> Idle -> step s e = s).
Proof.
  intros s. destruct (reachable_SessionInv events) as (H1 & H2 & H3). fold s in H1, H2, H3.
  split; [exact H1|]. split.
  - intros camera type Hi. apply session_state_Idle in Hi. destruct Hi as [Es Er].
    specialize (H2 Er). unfold startSession, session_state, in_flight in *.
    rewrite Es, Er. simpl. rewrite Es, filter_length_snoc. simpl. repeat split. lia.
  - intros e He Hb. destruct e; try discriminate; simpl.
    + destruct (subscribed _ _); [|reflexivity]. unfold onDoorbellPressed.
      destruct (negb _); [|reflexivity]. apply startSession_busy. exact Hb.
    + destruct (subscribed _ _); [|reflexivity]. unfold onMotionDetected.
      destruct (_ && _); [|reflexivity]. apply startSession_busy. exact Hb.
Qed.

Lemma startSession_exclusive_witness :
  session_state (run start monitoring) = Idle /\
  sessionRunning (startSession front_door ring (run start monitoring)) = true /\
  session_state (run start (monitoring ++ doorbell_session)) <> Idle /\
  step (run start (monitoring ++ doorbell_session)) (MotionDetected front_door true) =
  run start (monitoring ++ doorbell_session).
Proof.
  split; [reflexivity|]. split.
  - apply (proj1 (proj2 (startSession_exclusive monitoring))). reflexivity.
  - split; [discriminate|].
    apply (proj2 (proj2 (startSession_exclusive (monitoring ++ doorbell_session)))).
    + reflexivity.
    + discriminate.
Defined.

(** C2 (at most one readiness signal per arming).  Each
    VIDEO_STREAM_AVAILABLE is sent by the listener of one watcher that was
    armed before, no watcher sends two, and while no watcher is armed --
    in particular right after [stopWatchingFile] -- a file event changes
    nothing. *)
Theorem ready_at_most_once (events : list Event) :
  let s := run start events in
  NoDup (ready_by s) /\
  List.length (filter is_available (notifications s)) = List.length (ready_by s) /\
  (forall w, In w (ready_by s) -> (w < next_watcher s)%nat) /\
  (forall w filePath, In w (ready_by s) -> step s (FileAdded w filePath) = s) /\
  (forall w filePath, watcher s = None -> step s (FileAdded w filePath) = s) /\
  (forall w filePath,
     watcher (stopWatchingFile s) = None /\
     step (stopWatchingFile s) (FileAdded w filePath) = stopWatchingFile s).
Proof.
  intros s. destruct (reachable_WatchInv events) as (W1 & W2 & W3 & W4 & W5).
  fold s in W1, W2, W3, W4, W5.
  assert (closed : forall x w filePath,
            open_watchers x = option_list (watcher x) -> watcher x <> Some w ->
            step x (FileAdded w filePath) = x).
  { intros x w filePath E Hw. simpl. destruct (mem w (open_watchers x)) eqn:Hm; [|reflexivity].
    apply mem_In in Hm. rewrite E in Hm.
    destruct (watcher x) as [w'|]; simpl in Hm; [|contradiction].
    destruct Hm as [->|[]]. congruence. }
  repeat split; auto.
  - intros w Hw. apply W4. exact Hw.
  - intros w filePath Hw. apply closed; [exact W1 | apply W4; exact Hw].
  - intros w filePath Hw. apply closed; [exact W1 | congruence].
  - apply stopWatchingFile_time.
  - pose proof (stopWatchingFile_view s W1) as V. unfold watch_view in V.
    injection V as V1 V2 _ _ _. apply closed; [rewrite V1, V2; reflexivity | congruence].
Qed.

Lemma ready_at_most_once_witness :
  watcher (run start ended_without_ready) = None /\
  step (run start ended_without_ready) (FileAdded 0 playlist_path) =
  run start ended_without_ready.
Proof.
  split; [reflexivity|].
  apply (proj1 (proj2 (proj2 (proj2 (proj2 (ready_at_most_once ended_without_ready)))))).
  reflexivity.
Defined.

(** ** Timers are never cancelled *)

Lemma subscribeCameras_time :
  forall l x, timers (snd (subscribeCameras l x)) = timers x /\
              now (snd (subscribeCameras l x)) = now x /\
              watcher (snd (subscribeCameras l x)) = watcher x.
Proof.
  induction l as [|c l IH]; intros x; simpl; [auto|].
  destruct (config x) as [cfg|]; simpl; [|auto].
  destruct (ringStreamMotion cfg);
    match goal with |- context [subscribeCameras l ?y] =>
      destruct (IH y) as (-> & -> & ->) end; auto.
Qed.

Lemma step_keeps_timers (s : Helper) (e : Event) :
  is_timer_fired e = false -> incl (timers s) (timers (step s e)).
Proof.
  intros He. destruct e; try discriminate; simpl.
  - unfold socketNotificationReceived. destruct (String.eqb _ _); [|apply incl_refl].
    simpl. destruct (envFile s); apply incl_refl.
  - destruct (discovering s) as [|n]; [apply incl_refl|].
    unfold monitor_discovered.
    match goal with |- context [subscribeCameras ?l ?x] =>
      destruct (subscribeCameras_time l x) as (F1 & _);
      destruct (subscribeCameras l x) as [[|] s2] end;
    simpl in *; rewrite F1; apply incl_refl.
  - destruct (discovering s) as [|n]; apply incl_refl.
  - destruct (ringApi s); [|apply incl_refl]. unfold onRefreshTokenUpdated.
    destruct oldRefreshToken as [old|]; [|apply incl_refl].
    destruct (truthy _); [|apply incl_refl].
    simpl. destruct (envFile s); apply incl_refl.
  - destruct (subscribed _ _); [|apply incl_refl]. unfold onDoorbellPressed, startSession.
    destruct (negb _); [|apply incl_refl]. destruct (_ || _); apply incl_refl.
  - destruct (subscribed _ _); [|apply incl_refl]. unfold onMotionDetected, startSession.
    destruct (_ && _); [|apply incl_refl]. destruct (_ || _); apply incl_refl.
  - destruct (subscribed _ _); apply incl_refl.
  - destruct (nth_error (pending s) k) as [[camera|camera t|]|] eqn:Ek; try apply incl_refl.
    destruct (cleanUpVideoStreamDirectory (directory s)) as [r d].
    destruct r; [|apply incl_refl].
    unfold startSession_cleaned, watchForStreamStarted.
    match goal with |- context [stopWatchingFile ?y] =>
      destruct (stopWatchingFile_time y) as (F1 & F2 & F3 & F4) end.
    match goal with |- context [match ?c with Some _ => _ | None => _ end] =>
      destruct c end; simpl; rewrite F1; apply incl_appl, incl_refl.
  - destruct (nth_error (pending s) k) as [[camera|camera t|]|] eqn:Ek; try apply incl_refl.
    simpl. apply incl_appl, incl_refl.
  - destruct (nth_error (pending s) k) as [[camera|camera t|]|] eqn:Ek; apply incl_refl.
  - destruct (find_call h (calls s)) as [camera|] eqn:Ef; [|apply incl_refl].
    unfold onCallEnded.
    match goal with |- context [stopWatchingFile ?y] =>
      destruct (stopWatchingFile_time y) as (F1 & F2 & F3 & F4) end.
    simpl. rewrite F1. apply incl_refl.
  - destruct (_ && _); [|apply incl_refl]. unfold onAdd.
    destruct (String.eqb _ _); [|apply incl_refl].
    destruct (stopWatchingFile_time s) as (F1 & F2 & F3 & F4).
    simpl. rewrite F1. apply incl_refl.
  - destruct (_ && _); apply incl_refl.
  - unfold stop.
    destruct (stopWatchingFile_time (toLog Log_Stopping s)) as (F1 & F2 & F3 & F4).
    destruct (sipSession (stopWatchingFile (toLog Log_Stopping s))); simpl;
      rewrite F1; apply incl_refl.
  - apply incl_refl.
Qed.

Lemma stopWatchingFile_rest (s : Helper) :
  stop_requests (stopWatchingFile s) = stop_requests s /\
  sipSession (stopWatchingFile s) = sipSession s /\
  notifications (stopWatchingFile s) = notifications s /\
  console (stopWatchingFile s) = console s.
Proof. unfold stopWatchingFile. destruct (watcher s); simpl; auto. Qed.

(** C3, as the code has it.  No handler cancels a timer: whatever event
    other than a timer's own firing is handled, every pending timer stays
    pending.  A timer that fires is the only one removed.  A session timer
    asks the session held in [sipSession] at that moment to stop, if there
    is one, and touches nothing of the watcher; a watcher timer disarms the
    watcher held at that moment and touches nothing of the session. *)
Theorem timers_never_cancelled (s : Helper) (e : Event) :
  (is_timer_fired e = false -> incl (timers s) (timers (step s e))) /\
  (forall k t, e = TimerFired k -> nth_error (timers s) k = Some t -> due t <= now s ->
     timers (step s e) = remove_nth k (timers s) /\
     match callback t with
     | SessionTimeout _ =>
         stop_requests (step s e) = stop_requests s ++ option_list (sipSession s) /\
         watcher (step s e) = watcher s /\
         open_watchers (step s e) = open_watchers s
     | WatcherTimeout _ =>
         watcher (step s e) = None /\
         stop_requests (step s e) = stop_requests s /\
         sipSession (step s e) = sipSession s
     end).
Proof.
  split; [apply step_keeps_timers|].
  intros k t -> Hk Hd. simpl. rewrite Hk.
  apply Z.leb_le in Hd. rewrite Hd.
  destruct (callback t); simpl.
  - destruct (sipSession s); simpl; rewrite ?app_nil_r; auto.
  - match goal with |- context [stopWatchingFile ?y] =>
      destruct (stopWatchingFile_time y) as (F1 & F2 & F3 & F4);
      destruct (stopWatchingFile_rest y) as (G1 & G2 & G3 & G4) end.
    auto.
Qed.

Lemma timers_never_cancelled_witness :
  is_timer_fired (CallEnded 0) = false /\
  incl (timers (run start (monitoring ++ doorbell_session)))
       (timers (step (run start (monitoring ++ doorbell_session)) (CallEnded 0))) /\
  timers (step (run start (second_session ++ [Elapse 10000])) (TimerFired 0)) =
  remove_nth 0 (timers (run start (second_session ++ [Elapse 10000]))).
Proof.
  split; [reflexivity|]. split.
  - apply (proj1 (timers_never_cancelled _ (CallEnded 0))). reflexivity.
  - apply (proj2 (timers_never_cancelled
                    (run start (second_session ++ [Elapse 10000])) (TimerFired 0))
             O (mkTimer 60000 (SessionTimeout 0)) eq_refl).
    + vm_compute. reflexivity.
    + apply Z.leb_le. vm_compute. reflexivity.
Defined.

(** C3, as stated, fails: the first session ends after one second and its
    60 s timer stays pending although its session is gone; the second
    session, created at 50 s with its own deadline at 110 s, is asked to
    stop when that old timer fires at 60 s. *)
Lemma stale_session_timer_stops_next_session :
  let s := run start second_session in
  In (mkTimer 60000 (SessionTimeout 0)) (timers s) /\
  owner_active s (mkTimer 60000 (SessionTimeout 0)) = false /\
  sipSession s = Some 1%nat /\ now s = 50000 /\ stop_requests s = [] /\
  In (mkTimer 110000 (SessionTimeout 1)) (timers s) /\
  now (run start late_firing) = 60000 /\
  stop_requests (run start late_firing) = [1%nat].
Proof. vm_compute. repeat split; auto. Qed.

(** ** A rejected session creation *)

(** What the [catch] of [startSession] does in a reachable state. *)
Lemma rejection_step (events : list Event) (k : nat) (message : string)
    (camera : Camera) (t : Z) :
  let s := run start events in
  nth_error (pending s) k = Some (AwaitCreate camera t) ->
  let s' := step s (SessionRejected k message) in
  session_state s' = Idle /\
  console s' = console s ++ [Log_ErrorStartingStream message] /\
  notifications s' = notifications s /\
  pending s' = remove_nth k (pending s) /\
  in_flight s' = O /\
  watcher s' = watcher s /\
  timers s' = timers s.
Proof.
  intros s Hk s'. subst s'. simpl. rewrite Hk. simpl.
  destruct (reachable_SessionInv events) as (H1 & H2 & H3). fold s in H1, H2, H3.
  pose proof (filter_length_remove_nth is_start _ _ _ Hk) as L. simpl in L.
  unfold in_flight in *.
  assert (Hc : calls s = []) by (destruct (calls s); [reflexivity | simpl in *; lia]).
  assert (Es : sipSession s = None).
  { destruct (sipSession s) as [h|] eqn:E; [|reflexivity].
    specialize (H3 h eq_refl). rewrite Hc in H3. contradiction. }
  unfold session_state. simpl. rewrite Es, Hc. simpl.
  repeat split; auto. lia.
Qed.

(** C4 at the failing input.  The doorbell is pressed, the creation of the
    session is rejected: the helper is idle, the error is logged, nothing
    was sent -- and the watcher armed for the attempt is still armed.  A
    playlist reported two seconds later makes the helper send
    VIDEO_STREAM_AVAILABLE for that attempt. *)
Theorem creation_failure_leaves_watcher_armed :
  let s1 := run start creation_failure in
  let s2 := run start creation_failure_then_file in
  session_state s1 = Idle /\
  In (Log_ErrorStartingStream "connection refused") (console s1) /\
  notifications s1 = [] /\
  watcher s1 = Some O /\ open_watchers s1 = [O] /\
  session_state s2 = Idle /\
  notifications s2 = [VIDEO_STREAM_AVAILABLE] /\
  ready_by s2 = [O].
Proof. vm_compute. repeat split; auto 10. Qed.

(** C5, as stated, fails: after a rejected creation no notification at all
    has been sent, so no error notification either. *)
Lemma creation_failure_sends_no_error :
  let s := run start creation_failure in
  session_state s = Idle /\
  notifications s = [] /\ existsb is_error (notifications s) = false.
Proof. vm_compute. repeat split. Qed.

(** C5, as the code has it.  When the creation of the session is rejected
    the helper is idle at once, the error goes to the log and only there
    (the notifications are the same as before), and nothing is retried: no
    [startSession] call is left suspended and no session exists. *)
Theorem creation_failure_logged_only (events : list Event) (k : nat)
    (message : string) (camera : Camera) (t : Z) :
  let s := run start events in
  nth_error (pending s) k = Some (AwaitCreate camera t) ->
  let s' := step s (SessionRejected k message) in
  session_state s' = Idle /\
  console s' = console s ++ [Log_ErrorStartingStream message] /\
  notifications s' = notifications s /\
  in_flight s' = O.
Proof.
  intros s Hk s'.
  destruct (rejection_step events k message camera t Hk) as (A & B & C & _ & D & _).
  auto.
Qed.

Lemma creation_failure_logged_only_witness :
  let s := run start (monitoring ++ [DoorbellPressed front_door; CleanUpSettled 0]) in
  nth_error (pending s) 0 = Some (AwaitCreate front_door 60000) /\
  session_state (step s (SessionRejected 0 "connection refused")) = Idle.
Proof.
  split; [reflexivity|].
  apply (creation_failure_logged_only
           (monitoring ++ [DoorbellPressed front_door; CleanUpSettled 0]) O
           "connection refused" front_door 60000).
  reflexivity.
Defined.

(** ** The watcher across the life of a session *)

Lemma subscribeCameras_next_watcher :
  forall l x, next_watcher (snd (subscribeCameras l x)) = next_watcher x.
Proof.
  intros l x. pose proof (subscribeCameras_view l x) as V.
  unfold watch_view in V. injection V as _ _ V _ _. exact V.
Qed.

(** A watcher is created by one event only: the settlement of the clean-up
    a [startSession] call was waiting for. *)
Lemma step_arms_only_after_cleanup (s : Helper) (e : Event) :
  next_watcher (step s e) <> next_watcher s ->
  exists k camera,
    nth_error (pending s) k = Some (AwaitCleanUp camera) /\
    step s e = startSession_cleaned camera
                 (set_directory (snd (cleanUpVideoStreamDirectory (directory s)))
                    (resume k s)).
Proof.
  intros H. destruct e; simpl in H.
  - exfalso. apply H. unfold socketNotificationReceived.
    destruct (String.eqb _ _); [|reflexivity]. simpl. destruct (envFile s); reflexivity.
  - exfalso. apply H. destruct (discovering s) as [|n]; [reflexivity|].
    unfold monitor_discovered.
    match goal with |- context [subscribeCameras ?l ?x] =>
      pose proof (subscribeCameras_next_watcher l x) as F;
      destruct (subscribeCameras l x) as [[|] s2] end; simpl in *; exact F.
  - exfalso. apply H. destruct (discovering s); reflexivity.
  - exfalso. apply H. destruct (ringApi s); [|reflexivity]. unfold onRefreshTokenUpdated.
    destruct oldRefreshToken as [old|]; [|reflexivity].
    destruct (truthy _); [|reflexivity]. simpl. destruct (envFile s); reflexivity.
  - exfalso. apply H. destruct (subscribed _ _); [|reflexivity].
    unfold onDoorbellPressed, startSession.
    destruct (negb _); [|reflexivity]. destruct (_ || _); reflexivity.
  - exfalso. apply H. destruct (subscribed _ _); [|reflexivity].
    unfold onMotionDetected, startSession.
    destruct (_ && _); [|reflexivity]. destruct (_ || _); reflexivity.
  - exfalso. apply H. destruct (subscribed _ _); reflexivity.
  - destruct (nth_error (pending s) k) as [[camera|camera t|]|] eqn:Ek;
      try (exfalso; apply H; reflexivity).
    destruct (cleanUpVideoStreamDirectory (directory s)) as [r d] eqn:Ec.
    destruct r; [|exfalso; apply H; reflexivity].
    exists k, camera. split; [exact Ek|]. simpl. rewrite Ek, ?Ec. reflexivity.
  - exfalso. apply H.
    destruct (nth_error (pending s) k) as [[camera|camera t|]|]; reflexivity.
  - exfalso. apply H.
    destruct (nth_error (pending s) k) as [[camera|camera t|]|]; reflexivity.
  - exfalso. apply H. destruct (find_call h (calls s)); [|reflexivity].
    unfold onCallEnded. simpl.
    match goal with |- context [stopWatchingFile ?y] =>
      destruct (stopWatchingFile_time y) as (_ & _ & _ & F) end. exact F.
  - exfalso. apply H. destruct (_ && _); [|reflexivity]. unfold onAdd.
    destruct (String.eqb _ _); [|reflexivity]. simpl.
    destruct (stopWatchingFile_time s) as (_ & _ & _ & F). exact F.
  - exfalso. apply H. destruct (_ && _); reflexivity.
  - exfalso. apply H. destruct (nth_error (timers s) k) as [t|]; [|reflexivity].
    destruct (due t <=? now s); [|reflexivity].
    destruct (callback t); simpl.
    + destruct (sipSession s); reflexivity.
    + match goal with |- context [stopWatchingFile ?y] =>
        destruct (stopWatchingFile_time y) as (_ & _ & _ & F) end. exact F.
  - exfalso. apply H. unfold stop.
    destruct (stopWatchingFile_time (toLog Log_Stopping s)) as (_ & _ & _ & F).
    destruct (sipSession (stopWatchingFile (toLog Log_Stopping s))); simpl; exact F.
  - exfalso. apply H. reflexivity.
Qed.

(** C6, as stated, fails: once the session is created the Session is
    Active and the watcher armed for it is still armed. *)
Lemma watcher_armed_while_active :
  let s := run start (monitoring ++ doorbell_session) in
  session_state s = Active /\ watcher s = Some O /\ open_watchers s = [O].
Proof. vm_compute. repeat split. Qed.

(** C6, as the code has it.  At every instant at most one watcher is open,
    and it is the one [this.watcher] holds.  A watcher is armed only while
    the Session is Starting, and the Session is still Starting right after.
    The watcher stays armed when the session is created, and the end of
    the call disarms it. *)
Theorem watcher_single_armed_when_starting (events : list Event) :
  let s := run start events in
  open_watchers s = option_list (watcher s) /\
  (List.length (open_watchers s) <= 1)%nat /\
  (forall e, next_watcher (step s e) <> next_watcher s ->
     session_state s = Starting /\
     session_state (step s e) = Starting /\
     watcher (step s e) = Some (next_watcher s)) /\
  (forall k, watcher (step s (SessionResolved k)) = watcher s) /\
  (forall h, In h (map fst (calls s)) -> watcher (step s (CallEnded h)) = None).
Proof.
  intros s.
  destruct (reachable_WatchInv events) as (W1 & _). fold s in W1.
  destruct (reachable_SessionInv events) as (H1 & H2 & H3). fold s in H1, H2, H3.
  split; [exact W1|]. split; [rewrite W1; destruct (watcher s); simpl; lia|].
  split; [|split].
  - intros e He. destruct (step_arms_only_after_cleanup s e He) as (k & camera & Hk & ->).
    pose proof (filter_length_remove_nth is_start _ _ _ Hk) as L. simpl in L.
    unfold in_flight in *.
    assert (Er : sessionRunning s = true).
    { destruct (sessionRunning s); [reflexivity|]. specialize (H2 eq_refl). lia. }
    assert (Es : sipSession s = None).
    { destruct (sipSession s) as [h|]; [|reflexivity].
      specialize (H3 h eq_refl). destruct (calls s); [contradiction | simpl in *; lia]. }
    unfold startSession_cleaned.
    match goal with |- context [watchForStreamStarted ?x] =>
      destruct (watchForStreamStarted_frame x) as (F1 & F2 & F3 & F4 & F5);
      assert (V : watcher (watchForStreamStarted x) = Some (next_watcher s))
        by (unfold watchForStreamStarted; simpl;
            destruct (stopWatchingFile_time x) as (_ & _ & _ & ->); reflexivity);
      destruct (config (watchForStreamStarted x)) end;
    unfold session_state in *; simpl in *; rewrite ?F3, ?F4, Es, Er; auto.
  - intros k. simpl.
    destruct (nth_error (pending s) k) as [[camera|camera t|]|]; reflexivity.
  - intros h Hh. apply In_find_call in Hh. destruct Hh as (c & Hc).
    simpl. rewrite Hc. unfold onCallEnded. simpl.
    match goal with |- context [stopWatchingFile ?y] =>
      destruct (stopWatchingFile_time y) as (_ & _ & F & _) end. exact F.
Qed.

Lemma watcher_single_armed_when_starting_witness :
  let s := run start (monitoring ++ [DoorbellPressed front_door]) in
  next_watcher (step s (CleanUpSettled 0)) <> next_watcher s /\
  session_state s = Starting /\
  In O (map fst (calls (run start (monitoring ++ doorbell_session)))) /\
  watcher (step (run start (monitoring ++ doorbell_session)) (CallEnded 0)) = None.
Proof.
  split; [vm_compute; discriminate|]. split.
  - apply (proj1 (proj2 (proj2 (watcher_single_armed_when_starting
                                  (monitoring ++ [DoorbellPressed front_door]))))
             (CleanUpSettled 0)).
    vm_compute. discriminate.
  - split; [vm_compute; auto|].
    apply (proj2 (proj2 (proj2 (proj2 (watcher_single_armed_when_starting
                                         (monitoring ++ doorbell_session)))))).
    vm_compute. auto.
Defined.

(** C9.  The subscriber of [onCallEnded] sends VIDEO_STREAM_ENDED whatever
    the state: whenever a live session ends, the notification is appended.
    In the run where the watch window lapses before any playlist is seen,
    VIDEO_STREAM_ENDED is the only notification ever sent. *)
Theorem ended_sent_without_ready :
  (forall s camera,
     notifications (onCallEnded camera s) = notifications s ++ [VIDEO_STREAM_ENDED]) /\
  (forall s h, In h (map fst (calls s)) ->
     notifications (step s (CallEnded h)) = notifications s ++ [VIDEO_STREAM_ENDED]) /\
  (let s := run start ended_without_ready in
   notifications s = [VIDEO_STREAM_ENDED] /\ ready_by s = [] /\ session_state s = Idle).
Proof.
  assert (A : forall s camera,
     notifications (onCallEnded camera s) = notifications s ++ [VIDEO_STREAM_ENDED]).
  { intros s camera. unfold onCallEnded. simpl.
    match goal with |- context [stopWatchingFile ?y] =>
      destruct (stopWatchingFile_rest y) as (_ & _ & F & _) end. exact F. }
  split; [exact A|]. split.
  - intros s h Hh. apply In_find_call in Hh. destruct Hh as (c & Hc).
    simpl. rewrite Hc. rewrite A. reflexivity.
  - vm_compute. repeat split.
Qed.

Lemma ended_sent_without_ready_witness :
  let s := run start (monitoring ++ doorbell_session) in
  In O (map fst (calls s)) /\
  notifications (step s (CallEnded 0)) = notifications s ++ [VIDEO_STREAM_ENDED].
Proof.
  split; [vm_compute; auto|].
  apply (proj1 (proj2 ended_sent_without_ready)). vm_compute. auto.
Defined.

(** ** The watch window *)

(** C10.  Every arming sets one timer, due 15 * 1000 ms after the arming,
    whatever the configuration says.  An armed watcher always has that
    timer pending, with a deadline not yet passed and at most 15 s away,
    so no watcher observes for longer.  When a watcher timer fires the
    watcher is disarmed and neither a notification nor a log line is
    produced. *)
Theorem watch_window_is_15_seconds :
  (forall s,
     timers (watchForStreamStarted s) =
     timers s ++ [mkTimer (now s + 15 * 1000) (WatcherTimeout (next_watcher s))]) /\
  (forall s cfg,
     timers (watchForStreamStarted (set_config cfg s)) =
     timers (watchForStreamStarted s)) /\
  (forall events,
     let s := run start events in
     (forall w, watcher s = Some w ->
        exists d, In (mkTimer d (WatcherTimeout w)) (timers s) /\
                  now s <= d <= now s + 15000) /\
     (forall k t w,
        nth_error (timers s) k = Some t -> callback t = WatcherTimeout w ->
        due t <= now s ->
        let s' := step s (TimerFired k) in
        watcher s' = None /\ open_watchers s' = [] /\
        notifications s' = notifications s /\ console s' = console s)).
Proof.
  assert (A : forall s,
     timers (watchForStreamStarted s) =
     timers s ++ [mkTimer (now s + 15 * 1000) (WatcherTimeout (next_watcher s))]).
  { intros s. unfold watchForStreamStarted. simpl.
    destruct (stopWatchingFile_time s) as (-> & -> & _ & ->). reflexivity. }
  split; [exact A|]. split; [intros s cfg; rewrite !A; reflexivity|].
  intros events s. split.
  - intros w Hw. destruct (reachable_TimeInv events) as (T1 & T2). fold s in T1, T2.
    destruct (T2 w Hw) as (d & Hd & Hb). exists d. split; [exact Hd|].
    split; [apply (T1 _ Hd) | exact Hb].
  - intros k t w Hk Hc Hd s'. subst s'. simpl. rewrite Hk.
    apply Z.leb_le in Hd. rewrite Hd, Hc. simpl.
    destruct (reachable_WatchInv events) as (W1 & _). fold s in W1.
    set (x := set_timers (remove_nth k (timers s)) s).
    pose proof (stopWatchingFile_view x W1) as V. unfold watch_view in V.
    injection V as V1 V2 _ _ _.
    destruct (stopWatchingFile_rest x) as (_ & _ & G3 & G4).
    auto.
Qed.

Lemma watch_window_is_15_seconds_witness :
  let s := run start (monitoring ++ doorbell_session ++ [Elapse 15000]) in
  watcher s = Some O /\
  nth_error (timers s) 0 = Some (mkTimer 15000 (WatcherTimeout 0)) /\
  (exists d, In (mkTimer d (WatcherTimeout 0)) (timers s) /\ now s <= d <= now s + 15000) /\
  watcher (step s (TimerFired 0)) = None.
Proof.
  split; [reflexivity|]. split; [reflexivity|]. split.
  - apply (proj1 (proj2 (proj2 watch_window_is_15_seconds)
                   (monitoring ++ doorbell_session ++ [Elapse 15000]))).
    reflexivity.
  - apply (proj2 (proj2 (proj2 watch_window_is_15_seconds)
                   (monitoring ++ doorbell_session ++ [Elapse 15000]))
             O (mkTimer 15000 (WatcherTimeout 0)) O).
    + reflexivity.
    + reflexivity.
    + apply Z.leb_le. vm_compute. reflexivity.
Defined.

(** ** Cleaning the output directory *)

Lemma unlinkAll_own_entries :
  forall entries d',
    unlinkAll (map fst entries) (Directory entries) = (Resolved, d') ->
    d' = Directory [].
Proof.
  induction entries as [|[n k] entries IH]; intros d' H; simpl in H.
  - injection H as <-. reflexivity.
  - rewrite String.eqb_refl in H.
    destruct k; simpl in H; [apply IH; exact H | discriminate | discriminate].
Qed.

(** C8.  When the clean-up resolves, what is at the output path is a
    directory and it has no entry: it exists, and reading it gives the
    empty list. *)
Theorem cleanUp_leaves_empty_directory (d d' : DirNode) :
  cleanUpVideoStreamDirectory d = (Resolved, d') ->
  d' = Directory [] /\ fs_exists d' = true /\ fs_readdir d' = Some [].
Proof.
  intros H. assert (E : d' = Directory []).
  { unfold cleanUpVideoStreamDirectory in H.
    destruct d as [[|]| |entries|]; simpl in H; try discriminate.
    - injection H as <-. reflexivity.
    - apply unlinkAll_own_entries in H. exact H. }
  subst d'. repeat split.
Qed.

Lemma cleanUp_leaves_empty_directory_witness :
  cleanUpVideoStreamDirectory
    (Directory [("stream.m3u8"%string, RegularFile); ("stream0.ts"%string, RegularFile)])
  = (Resolved, Directory []) /\
  fs_readdir (Directory []) = Some [].
Proof.
  split; [reflexivity|].
  apply (cleanUp_leaves_empty_directory
           (Directory [("stream.m3u8"%string, RegularFile); ("stream0.ts"%string, RegularFile)])
           (Directory [])).
  reflexivity.
Defined.

(** ** Rotating the refresh token *)

Lemma string_app_assoc (a b c : string) :
  ((a ++ b) ++ c = a ++ (b ++ c))%string.
Proof. induction a as [|x a IH]; simpl; [reflexivity | rewrite IH; reflexivity]. Qed.

Lemma string_app_length (a b : string) :
  String.length (a ++ b) = (String.length a + String.length b)%nat.
Proof. induction a as [|x a IH]; simpl; [reflexivity | rewrite IH; reflexivity]. Qed.

Lemma prefix_app (p s : string) :
  prefix p s = true <-> exists r, s = (p ++ r)%string.
Proof.
  revert s. induction p as [|c p IH]; intros s; simpl.
  - split; [intros _; exists s; reflexivity | intros _; destruct s; reflexivity].
  - destruct s as [|d s]; [split; [discriminate | intros (r & H); discriminate]|].
    simpl. destruct (ascii_dec c d) as [->|Hne].
    + rewrite IH. split; intros (r & H); exists r; [rewrite H; reflexivity|].
      injection H as H. exact H.
    + split; [discriminate|]. intros (r & H). injection H as H1 H2. congruence.
Qed.

Lemma drop_app (p r : string) : drop (String.length p) (p ++ r) = r.
Proof. induction p as [|c p IH]; simpl; [destruct r; reflexivity | exact IH]. Qed.

Lemma take_app (p r : string) : take (String.length p) (p ++ r) = p.
Proof.
  induction p as [|c p IH]; simpl; [destruct r; reflexivity | rewrite IH; reflexivity].
Qed.

Lemma string_app_inv (a1 a2 b1 b2 : string) :
  (a1 ++ b1 = a2 ++ b2)%string -> String.length a1 = String.length a2 ->
  a1 = a2 /\ b1 = b2.
Proof.
  revert a2. induction a1 as [|c a1 IH]; intros [|d a2] H L; simpl in *; try discriminate.
  - auto.
  - injection H as -> H. injection L as L. destruct (IH a2 H L) as [-> ->]. auto.
Qed.

Lemma indexOf_unfold (pat s : string) :
  indexOf pat s =
  if prefix pat s then Some O
  else match s with
       | EmptyString => None
       | String _ s' => option_map S (indexOf pat s')
       end.
Proof. destruct s; reflexivity. Qed.

Lemma indexOf_Some (pat : string) :
  forall s i, indexOf pat s = Some i ->
    s = (take i s ++ pat ++ drop (i + String.length pat) s)%string /\
    String.length (take i s) = i /\
    (forall b a, s = (b ++ pat ++ a)%string -> (i <= String.length b)%nat).
Proof.
  induction s as [|c s IH]; intros i H; rewrite indexOf_unfold in H.
  - destruct (prefix pat EmptyString) eqn:P; [|discriminate].
    injection H as <-. apply prefix_app in P. destruct P as (r & P).
    simpl. split; [|split; [reflexivity | intros; lia]].
    rewrite P at 1. rewrite P, drop_app. reflexivity.
  - destruct (prefix pat (String c s)) eqn:P.
    + injection H as <-. apply prefix_app in P. destruct P as (r & P).
      simpl. split; [|split; [reflexivity | intros; lia]].
      rewrite P at 1. rewrite P, drop_app. reflexivity.
    + destruct (indexOf pat s) as [j|] eqn:E; [|discriminate].
      injection H as <-. destruct (IH j eq_refl) as (D & L & M).
      simpl. split; [rewrite <- D; reflexivity|]. split; [rewrite L; reflexivity|].
      intros [|d b] a Hs; simpl in Hs.
      * assert (prefix pat (String c s) = true) by (apply prefix_app; eauto). congruence.
      * injection Hs as _ Hs. specialize (M b a Hs). simpl. lia.
Qed.

Lemma indexOf_None (pat : string) :
  forall s, indexOf pat s = None -> forall b a, s <> (b ++ pat ++ a)%string.
Proof.
  induction s as [|c s IH]; intros H b a Hs; rewrite indexOf_unfold in H.
  - destruct (prefix pat EmptyString) eqn:P; [discriminate|].
    destruct b; simpl in Hs; [|discriminate].
    assert (prefix pat EmptyString = true) by (apply prefix_app; eauto). congruence.
  - destruct (prefix pat (String c s)) eqn:P; [discriminate|].
    destruct (indexOf pat s) eqn:E; [discriminate|].
    destruct b as [|d b]; simpl in Hs.
    + assert (prefix pat (String c s) = true) by (apply prefix_app; eauto). congruence.
    + injection Hs as _ Hs. exact (IH eq_refl b a Hs).
Qed.

Lemma GetSubstitution_pattern_free (matched before after : string) :
  forall template, dollar_pattern_free template = true ->
    GetSubstitution matched before after template = template.
Proof.
  induction template as [|c tl IH]; intros H; [reflexivity|].
  cbn [dollar_pattern_free] in H. apply andb_prop in H. destruct H as [Hc Ht].
  specialize (IH Ht). cbn [GetSubstitution].
  destruct (Ascii.eqb c "$"); [|rewrite IH; reflexivity].
  destruct tl as [|d rest]; [reflexivity|].
  simpl in Hc. apply negb_true_iff in Hc.
  apply orb_false_elim in Hc. destruct Hc as [Hc H4].
  apply orb_false_elim in Hc. destruct Hc as [Hc H3].
  apply orb_false_elim in Hc. destruct Hc as [H1 H2].
  rewrite H1, H2, H3, H4, IH. reflexivity.
Qed.

(** [replace], when no dollar sign of the replacement starts a pattern,
    puts it in the place of the first occurrence. *)
Lemma replace_first_occurrence (s old new before after : string) :
  dollar_pattern_free new = true ->
  s = (before ++ old ++ after)%string ->
  (forall b a, s = (b ++ old ++ a)%string -> (String.length before <= String.length b)%nat) ->
  replace s old new = (before ++ new ++ after)%string.
Proof.
  intros Hn Hs Hmin. unfold replace.
  destruct (indexOf old s) as [i|] eqn:E.
  - destruct (indexOf_Some old s i E) as (D & L & M).
    rewrite (GetSubstitution_pattern_free _ _ _ _ Hn).
    assert (Hi : String.length (take i s) = String.length before).
    { specialize (M before after Hs). specialize (Hmin _ _ D). lia. }
    assert (X : (take i s ++ old ++ drop (i + String.length old) s
                 = before ++ old ++ after)%string) by congruence.
    destruct (string_app_inv _ _ _ _ X Hi) as [-> X'].
    destruct (string_app_inv _ _ _ _ X' eq_refl) as [_ ->]. reflexivity.
  - exfalso. exact (indexOf_None old s E before after Hs).
Qed.

(** C7 at the failing input.  With RING_2FA_REFRESH_TOKEN=ABC stored, a
    rotation from ABC to XYZ stores RING_2FA_REFRESH_TOKEN=XYZ and a
    rotation with an absent old value leaves the file as it was; but a
    rotation from ABC to X$&Z stores RING_2FA_REFRESH_TOKEN=XABCZ, not the
    new value: [replace] reads the dollar pattern in it. *)
Theorem rotation_expands_dollar_patterns :
  let s := set_envFile (Some "RING_2FA_REFRESH_TOKEN=ABC"%string) start in
  envFile (onRefreshTokenUpdated "XYZ" (Some "ABC"%string) s)
  = Some "RING_2FA_REFRESH_TOKEN=XYZ"%string /\
  envFile (onRefreshTokenUpdated "XYZ" None s) = envFile s /\
  envFile (onRefreshTokenUpdated "X$&Z" (Some "ABC"%string) s)
  = Some "RING_2FA_REFRESH_TOKEN=XABCZ"%string /\
  envFile (onRefreshTokenUpdated "X$&Z" (Some "ABC"%string) s)
  <> Some "RING_2FA_REFRESH_TOKEN=X$&Z"%string.
Proof. repeat split. discriminate. Qed.

(** X13.  With an absent or empty old value the handler only logs and the
    stored file is untouched.  Otherwise, for a new value in which no
    dollar sign starts one of the patterns [$$], [$&], dollar-backtick and
    dollar-apostrophe, the stored content is rewritten with the first
    occurrence of the old value replaced by the new one, and is written
    back unchanged when the old value does not occur. *)
Theorem rotation_substitutes_first_occurrence (s : Helper)
    (newRefreshToken : string) (oldRefreshToken : option string) :
  (truthy oldRefreshToken = false ->
     onRefreshTokenUpdated newRefreshToken oldRefreshToken s =
     toLog Log_RefreshTokenUpdated s) /\
  (forall old content before after,
     oldRefreshToken = Some old -> old <> EmptyString ->
     envFile s = Some content ->
     dollar_pattern_free newRefreshToken = true ->
     content = (before ++ old ++ after)%string ->
     (forall b a, content = (b ++ old ++ a)%string ->
        (String.length before <= String.length b)%nat) ->
     envFile (onRefreshTokenUpdated newRefreshToken oldRefreshToken s) =
     Some (before ++ newRefreshToken ++ after)%string) /\
  (forall old content,
     oldRefreshToken = Some old -> envFile s = Some content ->
     (forall b a, content <> (b ++ old ++ a)%string) ->
     envFile (onRefreshTokenUpdated newRefreshToken oldRefreshToken s) = Some content) /\
  envFile (onRefreshTokenUpdated "XYZ" (Some "ABC"%string)
             (set_envFile (Some "RING_2FA_REFRESH_TOKEN=ABC"%string) s))
  = Some "RING_2FA_REFRESH_TOKEN=XYZ"%string.
Proof.
  split; [|split; [|split]].
  - intros H. unfold onRefreshTokenUpdated.
    destruct oldRefreshToken as [old|]; [|reflexivity]. rewrite H. reflexivity.
  - intros old content before after -> Hne Hc Hn Hs Hmin.
    unfold onRefreshTokenUpdated.
    assert (T : truthy (Some old) = true) by (destruct old; [congruence | reflexivity]).
    rewrite T. simpl. rewrite Hc. simpl.
    rewrite (replace_first_occurrence content old newRefreshToken before after Hn Hs Hmin).
    reflexivity.
  - intros old content -> Hc Hno. unfold onRefreshTokenUpdated.
    destruct (truthy (Some old)); simpl; rewrite Hc; [|reflexivity]. simpl.
    unfold replace. destruct (indexOf old content) as [i|] eqn:E; [|reflexivity].
    destruct (indexOf_Some old content i E) as (D & _). exfalso. exact (Hno _ _ D).
  - reflexivity.
Qed.

Lemma rotation_substitutes_first_occurrence_witness :
  let s := set_envFile (Some "id=ABC;ABC"%string) start in
  truthy None = false /\
  onRefreshTokenUpdated "X$Z" None s = toLog Log_RefreshTokenUpdated s /\
  envFile (onRefreshTokenUpdated "X$Z" (Some "ABC"%string) s) = Some "id=X$Z;ABC"%string.
Proof.
  split; [reflexivity|]. split.
  - apply (proj1 (rotation_substitutes_first_occurrence
                    (set_envFile (Some "id=ABC;ABC"%string) start) "X$Z" None)).
    reflexivity.
  - apply (proj1 (proj2 (rotation_substitutes_first_occurrence
                    (set_envFile (Some "id=ABC;ABC"%string) start) "X$Z"
                    (Some "ABC"%string)))
             "ABC"%string "id=ABC;ABC"%string "id="%string ";ABC"%string).
    + reflexivity.
    + discriminate.
    + reflexivity.
    + reflexivity.
    + reflexivity.
    + intros b a H. destruct b as [|c1 [|c2 [|c3 b]]]; simpl in *; try lia; discriminate.
Defined.

(** ** Monitoring and the env file *)

Lemma subscribeCameras_only_subs :
  forall l s, exists d m a, snd (subscribeCameras l s) = set_subs d m a s.
Proof.
  induction l as [|c l IH]; intros s; simpl.
  - exists (doorbell_subs s), (motion_subs s), (activity_subs s). destruct s; reflexivity.
  - destruct (config s) as [cfg|]; simpl; [|eauto].
    destruct (ringStreamMotion cfg);
      match goal with |- context [subscribeCameras l ?x] =>
        destruct (IH x) as (d & m & a & ->) end;
      exists d, m, a; reflexivity.
Qed.

Ltac unfold_handlers :=
  unfold socketNotificationReceived, monitorRingActivity, monitor_catch,
    onRefreshTokenUpdated, onDoorbellPressed, onMotionDetected, startSession,
    startSession_cleaned, startSession_created, startSession_catch, onCallEnded,
    onAdd, run_callback, stop, watchForStreamStarted, stopWatchingFile,
    setTimeout, fileWatcher_watch, watcher_close, sip_stop, suspend, resume,
    toLog, sendSocketNotification in *.

Ltac split_matches :=
  repeat (simpl;
          match goal with
          | |- context [match ?x with _ => _ end] => destruct x eqn:?
          end).

Ltac discovered_case s :=
  destruct (discovering s) as [|?n]; [| unfold monitor_discovered;
    match goal with |- context [subscribeCameras ?l ?x] =>
      let E := fresh "E" in
      destruct (subscribeCameras_only_subs l x) as (?d & ?m & ?a & E);
      destruct (subscribeCameras l x) as [[|] ?s2]; simpl in E; subst end ].

(** X1.  A notification other than BEGIN_RING_MONITORING is ignored.
    BEGIN_RING_MONITORING stores the payload as the configuration; it
    writes the env file from the payload's token only when there is no env
    file, and never overwrites one that exists. *)
Theorem begin_monitoring_keeps_stored_token (s : Helper)
    (notification : string) (payload : Config) :
  let s' := socketNotificationReceived notification payload s in
  (notification <> "BEGIN_RING_MONITORING"%string -> s' = s) /\
  (forall content, envFile s = Some content -> envFile s' = Some content) /\
  (notification = "BEGIN_RING_MONITORING"%string ->
     config s' = Some payload /\ discovering s' = S (discovering s) /\
     (envFile s = None ->
      envFile s' = Some ("RING_2FA_REFRESH_TOKEN=" ++ ring2faRefreshToken payload)%string)).
Proof.
  unfold socketNotificationReceived. simpl. repeat split.
  - intros H. apply String.eqb_neq in H. rewrite H. reflexivity.
  - intros content H. destruct (String.eqb _ _); simpl; rewrite ?H; simpl; rewrite ?H; reflexivity.
  - subst. rewrite String.eqb_refl. destruct (envFile s); reflexivity.
  - subst. rewrite String.eqb_refl. destruct (envFile s); reflexivity.
  - intros E. subst. rewrite String.eqb_refl, E. reflexivity.
Qed.

Lemma begin_monitoring_keeps_stored_token_witness :
  envFile (socketNotificationReceived "BEGIN_RING_MONITORING"
             (mkConfig "NEW" false 2)
             (set_envFile (Some "RING_2FA_REFRESH_TOKEN=OLD"%string) start))
  = Some "RING_2FA_REFRESH_TOKEN=OLD"%string.
Proof.
  apply (proj1 (proj2 (begin_monitoring_keeps_stored_token
                         (set_envFile (Some "RING_2FA_REFRESH_TOKEN=OLD"%string) start)
                         "BEGIN_RING_MONITORING" (mkConfig "NEW" false 2)))).
  reflexivity.
Defined.

(** X2.  The env file is never removed once it exists, and only two
    handlers change it: the one of BEGIN_RING_MONITORING and the one of a
    token rotation with a non-empty old value. *)
Theorem envFile_written_only_by_begin_and_rotation (s : Helper) (e : Event) :
  (envFile s <> None -> envFile (step s e) <> None) /\
  (writes_envFile e = false -> envFile (step s e) = envFile s).
Proof.
  split.
  - intros H. destruct e; simpl;
      try (unfold_handlers; split_matches; simpl; try exact H; try discriminate; congruence).
    discovered_case s; exact H.
  - intros H. destruct e; simpl in H; try discriminate; simpl;
      try (unfold_handlers; split_matches; simpl in *; congruence).
    discovered_case s; reflexivity.
Qed.

Lemma envFile_written_only_by_begin_and_rotation_witness :
  envFile (run start monitoring) <> None /\
  envFile (step (run start monitoring) ModuleStop) <> None /\
  envFile (step (run start monitoring) (RefreshTokenUpdated "XYZ" None))
  = envFile (run start monitoring).
Proof.
  split; [discriminate|]. split.
  - apply (proj1 (envFile_written_only_by_begin_and_rotation (run start monitoring) ModuleStop)).
    discriminate.
  - apply (proj2 (envFile_written_only_by_begin_and_rotation (run start monitoring)
                    (RefreshTokenUpdated "XYZ" None))).
    reflexivity.
Defined.

(** ** Motion-triggered sessions *)

Lemma subscribeCameras_MotionOff :
  forall l s, MotionOff s -> MotionOff (snd (subscribeCameras l s)).
Proof.
  induction l as [|c l IH]; intros s HI; simpl; [exact HI|].
  pose proof HI as (M & C).
  destruct (config s) as [cfg|] eqn:E; simpl; [|exact HI].
  rewrite (C cfg eq_refl). apply IH. exact HI.
Qed.

Lemma step_MotionOff (s : Helper) (e : Event) :
  motion_disabled e = true -> MotionOff s -> MotionOff (step s e).
Proof.
  intros He HI. pose proof HI as (M & C).
  destruct e; simpl in He; simpl;
    try (unfold_handlers; split_matches; exact HI).
  - unfold socketNotificationReceived. destruct (String.eqb _ _); [|exact HI].
    simpl. destruct (envFile s); split; simpl; auto;
      intros cfg H; injection H as <-; apply negb_true_iff; exact He.
  - destruct (discovering s) as [|n]; [exact HI|]. unfold monitor_discovered.
    match goal with |- context [subscribeCameras ?l ?x] =>
      assert (P : MotionOff (snd (subscribeCameras l x)))
        by (apply subscribeCameras_MotionOff; exact HI);
      destruct (subscribeCameras l x) as [[|] s2] end; exact P.
Qed.

(** X3.  A motion event that reports the end of motion starts nothing.
    When no configuration ever enabled [ringStreamMotion], no motion
    subscription exists and every motion event, active or not, leaves the
    helper as it was. *)
Theorem motion_streams_only_when_enabled :
  (forall s camera, step s (MotionDetected camera false) = s) /\
  (forall events camera m,
     forallb motion_disabled events = true ->
     step (run start events) (MotionDetected camera m) = run start events).
Proof.
  split.
  - intros s camera. simpl. destruct (subscribed _ _); [|reflexivity].
    unfold onMotionDetected. rewrite andb_false_r. reflexivity.
  - intros events camera m H.
    assert (P : forall s, MotionOff s -> MotionOff (run s events)).
    { revert H. induction events as [|e events IH]; intros H s Hs; simpl; [exact Hs|].
      simpl in H. apply andb_prop in H. destruct H as [He H].
      apply (IH H). apply step_MotionOff; assumption. }
    assert (S0 : MotionOff start) by (split; [reflexivity | discriminate]).
    destruct (P start S0) as (M & _). simpl. rewrite M. reflexivity.
Qed.

Lemma motion_streams_only_when_enabled_witness :
  let events := [ SocketNotification "BEGIN_RING_MONITORING" (mkConfig "ABC" false 1);
                  CamerasDiscovered 1 [front_door] ] in
  forallb motion_disabled events = true /\
  step (run start events) (MotionDetected front_door true) = run start events.
Proof.
  split; [reflexivity|].
  apply (proj2 motion_streams_only_when_enabled). reflexivity.
Defined.

(** ** Outcomes of the clean-up *)

Lemma unlink_entry_skip (n : string) (k : EntryKind) :
  forall kept rest,
    ~ In n (map fst kept) ->
    unlink_entry n (kept ++ (n, k) :: rest) =
    match k with
    | RegularFile => Some (kept ++ rest)
    | SubDirectory | ProtectedFile => None
    end.
Proof.
  induction kept as [|[n' k'] kept IH]; intros rest H; simpl.
  - rewrite String.eqb_refl. reflexivity.
  - simpl in H. destruct (String.eqb n' n) eqn:E.
    + apply String.eqb_eq in E. exfalso. apply H. left. exact E.
    + rewrite IH; [destruct k; reflexivity | tauto].
Qed.

Lemma unlinkAll_outcome :
  forall entries kept,
    NoDup (map fst (kept ++ entries)) ->
    filter (fun x => negb (is_regular x)) kept = kept ->
    unlinkAll (map fst entries) (Directory (kept ++ entries)) =
    (if forallb is_regular entries then Resolved else Rejected,
     Directory (kept ++ filter (fun x => negb (is_regular x)) entries)).
Proof.
  induction entries as [|[n k] entries IH]; intros kept ND Fk; simpl.
  - reflexivity.
  - assert (Hn : ~ In n (map fst kept)).
    { rewrite map_app in ND. simpl in ND. apply NoDup_remove_2 in ND.
      intros H. apply ND. apply in_or_app. left. exact H. }
    rewrite (unlink_entry_skip n k kept entries Hn).
    assert (ND' : NoDup (map fst (kept ++ entries))).
    { rewrite map_app in *. simpl in ND. apply NoDup_remove_1 in ND. exact ND. }
    destruct k; unfold is_regular at 1 3; simpl;
      [ apply IH; assumption
      | replace (kept ++ (n, SubDirectory) :: entries)
          with ((kept ++ [(n, SubDirectory)]) ++ entries)
          by (rewrite <- app_assoc; reflexivity)
      | replace (kept ++ (n, ProtectedFile) :: entries)
          with ((kept ++ [(n, ProtectedFile)]) ++ entries)
          by (rewrite <- app_assoc; reflexivity) ];
      (rewrite IH;
       [ simpl; rewrite <- app_assoc; reflexivity
       | rewrite <- app_assoc; exact ND
       | rewrite filter_app, Fk; reflexivity ]).
Qed.

(** X4.  What the clean-up does to a readable directory whose entries have
    distinct names: it resolves exactly when every entry is a regular file
    whose removal the system allows, and in either case every such file is
    gone and every other entry -- subdirectory or protected file -- is left
    (each unlink is issued whether or not another one fails).  A path that
    is not a directory, a directory that cannot be listed, or a path that
    is absent and cannot be created, makes it reject and is left as it
    was. *)
Theorem cleanUp_outcomes :
  (forall entries, NoDup (map fst entries) ->
     cleanUpVideoStreamDirectory (Directory entries) =
     (if forallb is_regular entries then Resolved else Rejected,
      Directory (filter (fun x => negb (is_regular x)) entries))) /\
  cleanUpVideoStreamDirectory NotADirectory = (Rejected, NotADirectory) /\
  cleanUpVideoStreamDirectory UnreadableDirectory = (Rejected, UnreadableDirectory) /\
  cleanUpVideoStreamDirectory (Absent false) = (Rejected, Absent false) /\
  cleanUpVideoStreamDirectory (Absent true) = (Resolved, Directory []).
Proof.
  split; [|repeat split].
  intros entries ND. unfold cleanUpVideoStreamDirectory. simpl.
  apply (unlinkAll_outcome entries []); auto.
Qed.

Lemma cleanUp_outcomes_witness :
  cleanUpVideoStreamDirectory
    (Directory [("stream.m3u8"%string, RegularFile); ("old"%string, SubDirectory);
                ("stream0.ts"%string, ProtectedFile); ("stream1.ts"%string, RegularFile)])
  = (Rejected, Directory [("old"%string, SubDirectory);
                          ("stream0.ts"%string, ProtectedFile)]).
Proof.
  apply (proj1 cleanUp_outcomes
           [("stream.m3u8"%string, RegularFile); ("old"%string, SubDirectory);
            ("stream0.ts"%string, ProtectedFile); ("stream1.ts"%string, RegularFile)]).
  repeat constructor; simpl; intuition discriminate.
Defined.

(** ** A start that dies in the clean-up *)

Lemma nth_error_is_start (l : list Continuation) (k : nat) (x : Continuation) :
  nth_error l k = Some x -> is_start x = true ->
  (1 <= List.length (filter is_start l))%nat.
Proof.
  intros H S. rewrite (filter_length_remove_nth is_start l k x H), S. lia.
Qed.

Lemma step_Stuck (s : Helper) (e : Event) :
  Stuck s ->
  Stuck (step s e) /\ next_session (step s e) = next_session s /\
  calls (step s e) = calls s.
Proof.
  intros (R & F). unfold Stuck, in_flight in *.
  assert (Hc : calls s = []) by (destruct (calls s); [reflexivity | simpl in F; lia]).
  assert (Hp : List.length (filter is_start (pending s)) = O) by lia.
  assert (NS : forall k x, nth_error (pending s) k = Some x -> is_start x = false).
  { intros k x H. destruct (is_start x) eqn:E; [|reflexivity].
    pose proof (nth_error_is_start _ _ _ H E). lia. }
  destruct e; simpl;
    try (unfold_handlers; split_matches; simpl;
         rewrite ?filter_length_snoc, ?R; simpl; repeat split; auto; lia).
  - discovered_case s; simpl; auto.
  - destruct (subscribed _ _); [|auto]. unfold onDoorbellPressed, startSession.
    rewrite R, orb_true_r. destruct (negb _); auto.
  - destruct (subscribed _ _); [|auto]. unfold onMotionDetected, startSession.
    rewrite R, orb_true_r. destruct (_ && _); auto.
  - destruct (nth_error (pending s) k) as [x|] eqn:Ek; [|auto].
    pose proof (NS k x Ek) as Hx. destruct x; try discriminate. simpl.
    rewrite <- (Nat.add_0_r (List.length (filter is_start (remove_nth k (pending s))))).
    pose proof (filter_length_remove_nth is_start _ _ _ Ek) as L. simpl in L.
    repeat split; auto; lia.
  - destruct (nth_error (pending s) k) as [x|] eqn:Ek; [|auto].
    pose proof (NS k x Ek) as Hx. destruct x; try discriminate. auto.
  - destruct (nth_error (pending s) k) as [x|] eqn:Ek; [|auto].
    pose proof (NS k x Ek) as Hx. destruct x; try discriminate. auto.
  - rewrite Hc. simpl. auto.
Qed.

(** X5.  When the clean-up awaited by [startSession] rejects, the call
    ends there with [sessionRunning] still set.  From such a state on, and
    whatever happens, the flag stays set, no session is created and every
    doorbell or motion event is dropped. *)
Theorem failed_cleanUp_blocks_all_later_sessions (s : Helper) (events : list Event) :
  Stuck s ->
  let s' := run s events in
  Stuck s' /\ next_session s' = next_session s /\ calls s' = calls s /\
  (forall e, is_trigger e = true -> step s' e = s').
Proof.
  intros H. simpl.
  assert (P : Stuck (run s events) /\ next_session (run s events) = next_session s /\
              calls (run s events) = calls s).
  { revert s H. induction events as [|e events IH]; intros s H; simpl; [auto|].
    destruct (step_Stuck s e H) as (H' & N & C).
    destruct (IH _ H') as (A & B & D). rewrite <- N, <- C. auto. }
  destruct P as (A & B & C). repeat split; auto; try apply A.
  intros e He. destruct A as (R & _).
  destruct e; try discriminate; simpl.
  - destruct (subscribed _ _); [|reflexivity]. unfold onDoorbellPressed, startSession.
    rewrite R, orb_true_r. destruct (negb _); reflexivity.
  - destruct (subscribed _ _); [|reflexivity]. unfold onMotionDetected, startSession.
    rewrite R, orb_true_r. destruct (_ && _); reflexivity.
Qed.

Lemma failed_cleanUp_blocks_all_later_sessions_witness :
  let s := run start (monitoring ++ [DirectoryChanged NotADirectory;
                                     DoorbellPressed front_door; CleanUpSettled 0]) in
  Stuck s /\
  step (run s [Elapse 60000; DirectoryChanged (Directory [])]) (DoorbellPressed front_door)
  = run s [Elapse 60000; DirectoryChanged (Directory [])].
Proof.
  assert (H : Stuck (run start (monitoring ++ [DirectoryChanged NotADirectory;
                                     DoorbellPressed front_door; CleanUpSettled 0])))
    by (split; reflexivity).
  split; [exact H|].
  apply (proj2 (proj2 (proj2 (failed_cleanUp_blocks_all_later_sessions _
           [Elapse 60000; DirectoryChanged (Directory [])] H)))).
  reflexivity.
Defined.

(** ** Stopping the module *)

(** X6.  [stop] sends no notification, disarms the watcher, asks the
    session it holds (if any) to stop and forgets it; it leaves
    [sessionRunning] as it is.  A second [stop] asks nothing more of any
    session.  A session whose creation is still awaited is not cancelled:
    when the creation resolves after [stop], the helper holds the new
    session and no stop was requested for it. *)
Theorem stop_is_quiet_and_spares_a_starting_session :
  (forall s,
     notifications (stop s) = notifications s /\
     watcher (stop s) = None /\ sipSession (stop s) = None /\
     sessionRunning (stop s) = sessionRunning s /\
     stop_requests (stop s) = stop_requests s ++ option_list (sipSession s) /\
     stop_requests (stop (stop s)) = stop_requests (stop s)) /\
  (forall s k camera t,
     nth_error (pending s) k = Some (AwaitCreate camera t) ->
     let s' := step (step s ModuleStop) (SessionResolved k) in
     sipSession s' = Some (next_session s) /\
     In (next_session s) (map fst (calls s')) /\
     stop_requests s' = stop_requests s ++ option_list (sipSession s)).
Proof.
  assert (A : forall s,
     notifications (stop s) = notifications s /\
     watcher (stop s) = None /\ sipSession (stop s) = None /\
     sessionRunning (stop s) = sessionRunning s /\
     stop_requests (stop s) = stop_requests s ++ option_list (sipSession s)).
  { intros s. unfold_handlers. split_matches; simpl in *; repeat split; try congruence;
      match goal with H : sipSession s = _ |- _ => rewrite H end;
      simpl; rewrite ?app_nil_r; reflexivity. }
  split.
  - intros s. destruct (A s) as (A1 & A2 & A3 & A4 & A5).
    destruct (A (stop s)) as (_ & _ & _ & _ & B5).
    rewrite B5, A3. simpl. rewrite app_nil_r. auto 10.
  - intros s k camera t Hk s'. subst s'.
    destruct (A s) as (A1 & A2 & A3 & A4 & A5).
    assert (P : pending (stop s) = pending s ++ [AwaitStopCleanUp]).
    { unfold_handlers. split_matches; reflexivity. }
    assert (N : next_session (stop s) = next_session s).
    { unfold_handlers. split_matches; reflexivity. }
    change (step s ModuleStop) with (stop s).
    remember (stop s) as x eqn:Ex.
    simpl. rewrite P, nth_error_app1 by (apply nth_error_Some; congruence).
    rewrite Hk. simpl. rewrite N, A5, map_app. simpl.
    repeat split. apply in_or_app. right. left. reflexivity.
Qed.

Lemma stop_is_quiet_and_spares_a_starting_session_witness :
  let s := run start (monitoring ++ [DoorbellPressed front_door; CleanUpSettled 0]) in
  nth_error (pending s) 0 = Some (AwaitCreate front_door 60000) /\
  sipSession (step (step s ModuleStop) (SessionResolved 0)) = Some (next_session s).
Proof.
  cbv zeta. split; [vm_compute; reflexivity|].
  exact (proj1 (proj2 stop_is_quiet_and_spares_a_starting_session
                  (run start (monitoring ++ [DoorbellPressed front_door; CleanUpSettled 0]))
                  O front_door 60000 ltac:(vm_compute; reflexivity))).
Defined.

(** ** The end of a call *)

(** X7.  When the call of the session the helper holds ends, the helper is
    idle again: no session is held or in flight, the watcher is disarmed,
    and exactly one VIDEO_STREAM_ENDED was added. *)
Theorem call_end_returns_to_idle (events : list Event) (h : nat) :
  let s := run start events in
  sipSession s = Some h ->
  let s' := step s (CallEnded h) in
  session_state s' = Idle /\ in_flight s' = O /\ calls s' = [] /\
  watcher s' = None /\ open_watchers s' = [] /\
  notifications s' = notifications s ++ [VIDEO_STREAM_ENDED].
Proof.
  intros s Hs s'. subst s'.
  destruct (reachable_SessionInv events) as (H1 & H2 & H3). fold s in H1, H2, H3.
  destruct (reachable_WatchInv events) as (W1 & _). fold s in W1.
  pose proof (H3 h Hs) as Hin. apply In_find_call in Hin. destruct Hin as (c & Hc).
  unfold in_flight in *.
  assert (Hd : drop_call h (calls s) = []) by (apply (drop_call_single h _ c Hc); lia).
  assert (Hp : List.length (filter is_start (pending s)) = O).
  { destruct (calls s); [discriminate | simpl in *; lia]. }
  simpl. rewrite Hc. unfold onCallEnded, session_state.
  match goal with |- context [stopWatchingFile ?y] =>
    set (x := y);
    destruct (stopWatchingFile_frame x) as (F1 & F2 & F3 & F4 & F5);
    destruct (stopWatchingFile_rest x) as (G1 & G2 & G3 & G4);
    pose proof (stopWatchingFile_view x W1) as V end.
  unfold watch_view in V. injection V as V1 V2 _ _ _.
  simpl. rewrite F1, F2, G3, V1, V2. subst x. simpl. rewrite Hd, Hp. auto 10.
Qed.

Lemma call_end_returns_to_idle_witness :
  sipSession (run start (monitoring ++ doorbell_session)) = Some O /\
  session_state (step (run start (monitoring ++ doorbell_session)) (CallEnded 0)) = Idle.
Proof.
  split; [vm_compute; reflexivity|].
  exact (proj1 (call_end_returns_to_idle (monitoring ++ doorbell_session) O
                  ltac:(vm_compute; reflexivity))).
Defined.

Lemma step_EndedInv (s : Helper) (e : Event) :
  SessionInv s -> EndedInv s -> EndedInv (step s e).
Proof.
  intros (H1 & H2 & H3) HI. unfold EndedInv in *.
  destruct e; simpl;
    try (unfold_handlers; split_matches; simpl;
         rewrite ?filter_app, ?length_app; simpl; lia).
  - discovered_case s; simpl; rewrite ?filter_app, ?length_app; simpl; lia.
  - destruct (find_call h (calls s)) as [c|] eqn:Hc; [|exact HI].
    unfold in_flight in H1.
    assert (Hd : drop_call h (calls s) = []) by (apply (drop_call_single h _ c Hc); lia).
    assert (L : List.length (calls s) = 1%nat).
    { destruct (calls s); [discriminate | simpl in *; lia]. }
    unfold onCallEnded.
    match goal with |- context [stopWatchingFile ?y] =>
      destruct (stopWatchingFile_frame y) as (F1 & F2 & F3 & F4 & F5);
      destruct (stopWatchingFile_rest y) as (G1 & G2 & G3 & G4);
      assert (N : next_session (stopWatchingFile y) = next_session y)
        by (unfold stopWatchingFile; destruct (watcher y); reflexivity) end.
    simpl in *. rewrite F2, G3, N. simpl. rewrite Hd, filter_app, length_app. simpl. lia.
Qed.

(** X8.  VIDEO_STREAM_ENDED is sent once for each session that ended and
    for nothing else: at any time the number of VIDEO_STREAM_ENDED sent
    plus the number of live sessions is the number of sessions created. *)
Theorem ended_once_per_session (events : list Event) :
  let s := run start events in
  (List.length (filter is_ended (notifications s)) + List.length (calls s))%nat
  = next_session s.
Proof.
  simpl.
  assert (P : forall s, SessionInv s -> EndedInv s ->
                        SessionInv (run s events) /\ EndedInv (run s events)).
  { induction events as [|e events IH]; intros s A B; simpl; [auto|].
    apply IH; [apply step_SessionInv | apply step_EndedInv]; assumption. }
  apply (P start start_SessionInv). reflexivity.
Qed.

(** ** The file name the listener compares *)

Lemma split_nonempty (sep : ascii) (s : string) : split sep s <> [].
Proof.
  destruct s as [|c s]; simpl; [discriminate|].
  destruct (Ascii.eqb c sep); [discriminate|].
  destruct (split sep s); discriminate.
Qed.

Lemma pop_cons (x : string) (l : list string) : l <> [] -> pop (x :: l) = pop l.
Proof. destruct l; [congruence | reflexivity]. Qed.

Lemma split_no_sep (sep : ascii) :
  forall t, has_char sep t = false -> split sep t = [t].
Proof.
  induction t as [|c t IH]; intros H; simpl in *; [reflexivity|].
  apply orb_false_elim in H. destruct H as [Hc Ht].
  rewrite Hc, (IH Ht). reflexivity.
Qed.

Lemma split_app_no_sep (sep : ascii) (t : string) :
  has_char sep t = false ->
  forall a, split sep (a ++ t) =
            removelast (split sep a) ++ [(pop (split sep a) ++ t)%string].
Proof.
  intros Ht. induction a as [|c a IH]; simpl.
  - apply split_no_sep. exact Ht.
  - destruct (Ascii.eqb c sep).
    + rewrite IH. pose proof (split_nonempty sep a) as N.
      destruct (split sep a) as [|x l]; [congruence|]. reflexivity.
    + rewrite IH. pose proof (split_nonempty sep a) as N.
      destruct (split sep a) as [|x [|y l]]; [congruence | reflexivity |].
      simpl. reflexivity.
Qed.

Lemma pop_snoc (l : list string) (x : string) : pop (l ++ [x]) = x.
Proof. unfold pop. apply last_last. Qed.

Lemma pop_split_app_no_sep (sep : ascii) (a t : string) :
  has_char sep t = false ->
  pop (split sep (a ++ t)) = (pop (split sep a) ++ t)%string.
Proof. intros H. rewrite (split_app_no_sep sep t H a). apply pop_snoc. Qed.

Lemma pop_split_after_sep (sep : ascii) (r : string) :
  forall a, pop (split sep (a ++ String sep r)) = pop (split sep r).
Proof.
  induction a as [|c a IH]; simpl.
  - rewrite Ascii.eqb_refl. apply pop_cons. apply split_nonempty.
  - destruct (Ascii.eqb c sep).
    + rewrite pop_cons by apply split_nonempty. exact IH.
    + rewrite <- IH.
      pose proof (split_nonempty sep (a ++ String sep r)) as N.
      assert (L : (2 <= List.length (split sep (a ++ String sep r)))%nat).
      { clear. induction a as [|c a IH]; simpl.
        - rewrite Ascii.eqb_refl. simpl.
          pose proof (split_nonempty sep r). destruct (split sep r); simpl; [congruence | lia].
        - destruct (Ascii.eqb c sep); simpl; [lia|].
          destruct (split sep (a ++ String sep r)); simpl in *; lia. }
      destruct (split sep (a ++ String sep r)) as [|x [|y l]]; simpl in L; try lia.
      reflexivity.
Qed.

(** X9.  The name the listener compares with [stream.m3u8] is the last
    component of the reported path, whether the path is written with
    slashes, with backslashes or with both: for a name free of both
    separators, any directory gives back the name. *)
Theorem fileName_is_last_component (dir name : string) :
  has_char "/" name = false -> has_char "\" name = false ->
  pop (split "/" (pop (split "\" (dir ++ String "/" name)))) = name /\
  pop (split "/" (pop (split "\" (dir ++ String "\" name)))) = name.
Proof.
  intros Hs Hb. split.
  - rewrite (pop_split_app_no_sep "\" dir (String "/" name)) by (simpl; exact Hb).
    rewrite (pop_split_after_sep "/" name).
    rewrite (split_no_sep "/" name Hs). reflexivity.
  - rewrite (pop_split_after_sep "\" name dir).
    rewrite (split_no_sep "\" name Hb).
    change (pop [name]) with name.
    rewrite (split_no_sep "/" name Hs). reflexivity.
Qed.

Lemma fileName_is_last_component_witness :
  pop (split "/" (pop (split "\" ("C:\mirror\modules/MMM-Ring/public" ++ String "/" "stream.m3u8"))))
  = "stream.m3u8"%string.
Proof.
  exact (proj1 (fileName_is_last_component "C:\mirror\modules/MMM-Ring/public" "stream.m3u8"
                  eq_refl eq_refl)).
Defined.

(** X10.  Of the files reported by an armed watcher, only one whose last
    component is [stream.m3u8] has any effect: for every other name the
    listener leaves the helper as it was, and for that name it sends
    VIDEO_STREAM_AVAILABLE and disarms. *)
Theorem listener_reacts_to_playlist_only (s : Helper) (w : nat) (dir name : string) :
  has_char "/" name = false -> has_char "\" name = false ->
  (name <> audioPlaylistFile -> onAdd w (dir ++ String "/" name) s = s) /\
  (name = audioPlaylistFile ->
     notifications (onAdd w (dir ++ String "/" name) s)
       = notifications s ++ [VIDEO_STREAM_AVAILABLE] /\
     watcher (onAdd w (dir ++ String "/" name) s) = None).
Proof.
  intros Hs Hb. unfold onAdd.
  rewrite (pop_split_app_no_sep "\" dir (String "/" name)) by (simpl; exact Hb).
  rewrite (pop_split_after_sep "/" name).
  rewrite (split_no_sep "/" name Hs). change (pop [name]) with name. split.
  - intros H. apply String.eqb_neq in H. rewrite H. reflexivity.
  - intros ->. rewrite String.eqb_refl. simpl.
    destruct (stopWatchingFile_rest s) as (_ & _ & -> & _).
    destruct (stopWatchingFile_time s) as (_ & _ & -> & _). auto.
Qed.

Lemma listener_reacts_to_playlist_only_witness :
  onAdd 0 ("/srv/public" ++ String "/" "stream0.ts") (run start (monitoring ++ doorbell_session))
  = run start (monitoring ++ doorbell_session).
Proof.
  apply (proj1 (listener_reacts_to_playlist_only (run start (monitoring ++ doorbell_session))
                  O "/srv/public" "stream0.ts" eq_refl eq_refl)).
  discriminate.
Defined.

Lemma ignored_from_hidden (d : ascii) (rest : string) :
  starts_with_line_terminator (String d rest) = false ->
  forall dir b, ignored_from b (dir ++ String "/" (String "." (String d rest))) = true.
Proof.
  intros Hd. induction dir as [|c dir IH]; intros b.
  - cbn [append ignored_from]. rewrite Hd.
    generalize (ignored_from (Ascii.eqb d "/" || Ascii.eqb d "\") rest).
    intros r. destruct b; reflexivity.
  - cbn [append ignored_from]. rewrite IH. apply orb_true_r.
Qed.

(** X11.  A file whose name is a dot followed by at least one more
    character that is not a line terminator (LF, CR, U+2028, U+2029) is
    never reported: the watcher's [ignored] pattern matches its path and
    the event leaves the helper as it was, even when the rest of the name
    is the playlist's. *)
Theorem hidden_files_are_ignored (s : Helper) (w : nat) (dir rest : string) (d : ascii) :
  starts_with_line_terminator (String d rest) = false ->
  ignored (dir ++ String "/" (String "." (String d rest))) = true /\
  step s (FileAdded w (dir ++ String "/" (String "." (String d rest)))) = s.
Proof.
  intros Hd.
  assert (I : ignored (dir ++ String "/" (String "." (String d rest))) = true)
    by (apply ignored_from_hidden; exact Hd).
  split; [exact I|]. simpl. unfold ignored in I. unfold ignored. rewrite I.
  rewrite andb_false_r. reflexivity.
Qed.

Lemma hidden_files_are_ignored_witness :
  step (run start (monitoring ++ doorbell_session))
       (FileAdded 0 ("/srv/public" ++ String "/" (String "." (String "s" "tream.m3u8"))))
  = run start (monitoring ++ doorbell_session).
Proof.
  exact (proj2 (hidden_files_are_ignored (run start (monitoring ++ doorbell_session)) O
                  "/srv/public" "tream.m3u8" "s" eq_refl)).
Defined.

(** ** A whole session *)

Lemma nth_error_snoc {A : Type} (l : list A) (x : A) :
  nth_error (l ++ [x]) (List.length l) = Some x.
Proof. induction l as [|a l IH]; simpl; [reflexivity | exact IH]. Qed.

Lemma remove_nth_snoc {A : Type} (l : list A) (x : A) :
  remove_nth (List.length l) (l ++ [x]) = l.
Proof. induction l as [|a l IH]; simpl; [reflexivity | rewrite IH; reflexivity]. Qed.

Ltac eval_state H :=
  cbv beta iota zeta delta
    [set_config set_watcher set_sipSession set_sessionRunning set_ringApi set_subs
     set_discovering set_pending set_timers set_now set_directory set_envFile
     set_watchers set_calls set_stop_requests set_console set_notifications
     set_ready_by
     config watcher sipSession sessionRunning ringApi doorbell_subs motion_subs
     activity_subs discovering pending timers now directory envFile open_watchers
     next_watcher calls next_session stop_requests console notifications ready_by
     toLog sendSocketNotification suspend resume setTimeout watcher_close
     fileWatcher_watch sip_stop stopWatchingFile watchForStreamStarted onAdd
     startSession startSession_cleaned startSession_created startSession_catch
     onCallEnded onDoorbellPressed is_some negb orb andb option_list
     find_call drop_call fst snd mem existsb filter] in H; cbn [app] in H.

Lemma happy_path_from (s : Helper) (camera : Camera) (filePath : string)
    (d' : DirNode) (cfg : Config) :
  SessionInv s -> open_watchers s = option_list (watcher s) ->
  config s = Some cfg ->
  session_state s = Idle ->
  subscribed camera (doorbell_subs s) = true ->
  cleanUpVideoStreamDirectory (directory s) = (Resolved, d') ->
  ignored filePath = false ->
  pop (split "/" (pop (split "\" filePath))) = audioPlaylistFile ->
  let p := List.length (pending s) in
  let s' := run s [ DoorbellPressed camera; CleanUpSettled p; SessionResolved p;
                    FileAdded (next_watcher s) filePath; CallEnded (next_session s) ] in
  notifications s' = notifications s ++ [VIDEO_STREAM_AVAILABLE; VIDEO_STREAM_ENDED] /\
  session_state s' = Idle /\ watcher s' = None /\ open_watchers s' = [] /\
  directory s' = d' /\ pending s' = pending s /\ in_flight s' = O /\
  stop_requests s' = stop_requests s.
Proof.
  intros (H1 & H2 & H3) W1 Hc Hi Hs Hd Hg Hn p s'.
  assert (E : s' = run s [ DoorbellPressed camera; CleanUpSettled p; SessionResolved p;
                    FileAdded (next_watcher s) filePath; CallEnded (next_session s) ])
    by reflexivity.
  clearbody s'. subst p.
  apply session_state_Idle in Hi. destruct Hi as [Es Er].
  specialize (H2 Er). unfold in_flight in *.
  assert (Hcalls : calls s = []) by (destruct (calls s); [reflexivity | simpl in *; lia]).
  assert (Hp : List.length (filter is_start (pending s)) = O) by lia.
  clear H1 H2 H3.
  destruct s as [cfg0 wat sip running api dsubs msubs asubs disc pend tim clock dir env
                 ow nxw cls nxs stops cons notes rdy].
  cbn [pending notifications stop_requests next_watcher next_session] in E |- *.
  simpl in W1, Hc, Es, Er, Hs, Hd, Hcalls, Hp. subst cfg0 sip running cls ow.
  unfold run in E. cbn [fold_left] in E.
  match type of E with context [step ?S0 (DoorbellPressed camera)] =>
    remember (step S0 (DoorbellPressed camera)) as s1 eqn:E1 end.
  cbv beta iota delta [step] in E1. eval_state E1. rewrite Hs in E1. eval_state E1.
  subst s1.
  match type of E with context [step ?S1 (CleanUpSettled ?p)] =>
    remember (step S1 (CleanUpSettled p)) as s2 eqn:E2 end.
  cbv beta iota delta [step] in E2. eval_state E2.
  rewrite nth_error_snoc, Hd, remove_nth_snoc in E2.
  assert (E2' : exists ow',
    s2 = mkHelper (Some cfg) (Some nxw) None true api dsubs msubs asubs disc
           (pend ++ [AwaitCreate camera (ringMinutesToStreamVideo cfg * 60 * 1000)])
           (tim ++ [mkTimer (clock + timer_delay (15 * 1000)) (WatcherTimeout nxw)])
           clock d' env (ow' ++ [nxw]) (S nxw) [] nxs stops
           (cons ++ [Log_Preparing (camera_name camera) ring]) notes rdy /\ ow' = []).
  { destruct wat as [w|]; eval_state E2; rewrite ?Nat.eqb_refl in E2; eval_state E2;
      exists []; (split; [exact E2 | reflexivity]). }
  clear E2. destruct E2' as (ow' & E2 & ->). cbn [app] in E2. subst s2.
  match type of E with context [step ?S1 (SessionResolved ?p)] =>
    remember (step S1 (SessionResolved p)) as s3 eqn:E3 end.
  cbv beta iota delta [step] in E3. eval_state E3.
  rewrite nth_error_snoc, remove_nth_snoc in E3. subst s3.
  match type of E with context [step ?S1 (FileAdded ?w ?f)] =>
    remember (step S1 (FileAdded w f)) as s4 eqn:E4 end.
  cbv beta iota delta [step] in E4. eval_state E4.
  rewrite Nat.eqb_refl, Hg in E4. eval_state E4. rewrite Hn, String.eqb_refl in E4.
  eval_state E4. subst s4.
  cbv beta iota delta [step] in E. eval_state E. rewrite ?Nat.eqb_refl in E. eval_state E.
  subst s'. unfold session_state. simpl. rewrite Hp.
  split; [rewrite <- app_assoc; reflexivity|]. repeat split.
Qed.

(** Cameras are subscribed only after a configuration was stored. *)
Lemma step_ConfigInv (s : Helper) (e : Event) : ConfigInv s -> ConfigInv (step s e).
Proof.
  intros HI. unfold ConfigInv in *.
  destruct e; simpl;
    try (unfold_handlers; split_matches; simpl in *; try exact HI; intros; discriminate).
  - destruct (discovering s) as [|n] eqn:D;
      [intros C; destruct (HI C) as (A & B & _); auto|].
    intros C. exfalso. unfold monitor_discovered in C.
    match type of C with context [subscribeCameras ?l ?x] =>
      destruct (subscribeCameras_only_subs l x) as (d & m & a & E);
      destruct (subscribeCameras l x) as [[|] s2]; simpl in E; subst s2 end;
    simpl in C; destruct (HI C) as (_ & _ & D'); congruence.
  - destruct (discovering s) eqn:D;
      [intros C; destruct (HI C) as (A & B & _); auto|]. simpl.
    intros C. destruct (HI C) as (_ & _ & D'). discriminate.
Qed.

Lemma reachable_ConfigInv (events : list Event) : ConfigInv (run start events).
Proof.
  apply (run_invariant ConfigInv step_ConfigInv). intros _. repeat split.
Qed.

(** X12.  The whole life of a session.  From any reachable idle state in
    which the camera's doorbell is subscribed and the output directory can
    be cleaned: the doorbell is pressed, the clean-up resolves, the session
    is created, the watcher armed for it reports the playlist, the call
    ends.  Then exactly VIDEO_STREAM_AVAILABLE and VIDEO_STREAM_ENDED were
    sent, in that order; the helper is idle with no watcher armed, nothing
    suspended that was not before, no stop requested, and the directory is
    the cleaned one. *)
Theorem doorbell_session_runs_to_idle (events : list Event) (camera : Camera)
    (filePath : string) (d' : DirNode) :
  let s := run start events in
  session_state s = Idle ->
  subscribed camera (doorbell_subs s) = true ->
  cleanUpVideoStreamDirectory (directory s) = (Resolved, d') ->
  ignored filePath = false ->
  pop (split "/" (pop (split "\" filePath))) = audioPlaylistFile ->
  let p := List.length (pending s) in
  let s' := run s [ DoorbellPressed camera; CleanUpSettled p; SessionResolved p;
                    FileAdded (next_watcher s) filePath; CallEnded (next_session s) ] in
  notifications s' = notifications s ++ [VIDEO_STREAM_AVAILABLE; VIDEO_STREAM_ENDED] /\
  session_state s' = Idle /\ watcher s' = None /\ open_watchers s' = [] /\
  directory s' = d' /\ pending s' = pending s /\ in_flight s' = O /\
  stop_requests s' = stop_requests s.
Proof.
  intros s Hi Hs Hd Hg Hn.
  destruct (config s) as [cfg|] eqn:Hc.
  - apply (happy_path_from s camera filePath d' cfg); auto.
    + apply reachable_SessionInv.
    + apply reachable_WatchInv.
  - destruct (reachable_ConfigInv events Hc) as (D & _). fold s in D.
    rewrite D in Hs. discriminate.
Qed.

Lemma doorbell_session_runs_to_idle_witness :
  notifications (run (run start monitoring)
                   [ DoorbellPressed front_door; CleanUpSettled 0; SessionResolved 0;
                     FileAdded 0 playlist_path; CallEnded 0 ])
  = [VIDEO_STREAM_AVAILABLE; VIDEO_STREAM_ENDED].
Proof.
  exact (proj1 (doorbell_session_runs_to_idle monitoring front_door playlist_path
                  (Directory [])
                  ltac:(vm_compute; reflexivity) ltac:(vm_compute; reflexivity)
                  ltac:(vm_compute; reflexivity) ltac:(vm_compute; reflexivity)
                  ltac:(vm_compute; reflexivity))).
Defined.

